(** * AgentCore runtime CI/CD scripts: deploy, clean up, test

    A shallow embedding of the three operational scripts of the repository

      - [scripts/deploy_agent.py]  (the reconciler, [deploy_agent]),
      - [scripts/cleanup_ecr.py]   (the retention pruner, [cleanup_ecr_images]
                                    and [process_repository]),
      - [scripts/test_agent.py]    (the validation harness, [test_agent]),

    together with the properties their specification states about them,
    and, after these, [scripts/create_guardrail.py]
    ([create_minimal_guardrail]), the entry points of the test and
    clean-up scripts, the scripts taken from their first line, where the
    clients are made, and further properties of all four.

    The scripts are sequential Python programs whose only effects are calls
    to boto3 clients, log lines, [sys.exit] and two small text files.  They
    are embedded in a writer monad over the trace of these effects, with an
    outcome that is a returned value, a raised exception or a [SystemExit].
    A boto3 client is described by the answer it gives to each request:
    within one run every remote operation is issued with pairwise distinct
    arguments, so this covers every behaviour of the remote services.
    The answers are the dicts of the boto3 documentation: timestamps are
    [datetime] objects, and a failed request raises a subclass of
    [Exception]. *)

From Stdlib Require Import ZArith Strings.Ascii Strings.String Strings.Byte.
From stdpp Require Import gmap strings list sorting.

#[local] Set Warnings "-register-all".
#[local] Open Scope string_scope.
#[local] Open Scope list_scope.

(** ** Python values *)

(** [str] is a Rocq string holding the UTF-8 encoding of the text; [bytes]
    is a list of bytes. *)
Definition bytes : Type := list Byte.byte.

(** Values produced by [json.loads]. *)
Inductive json : Type :=
| JNull
| JBool (b : bool)
| JNumber (repr : string)
| JString (s : string)
| JList (l : list json)
| JDict (d : gmap string json).

(** Exceptions.  Every constructor is a subclass of [Exception]; a
    [ClientError] carries [e.response['Error']['Code']].  The exception
    classes that boto3 generates for a service (such as
    [ecr_client.exceptions.RepositoryNotFoundException]) are the
    [ClientError]s with that error code. *)
Inductive exn : Type :=
| ClientError (code : string)
| TypeError
| UnicodeDecodeError
| JSONDecodeError
| OtherException (name : string).

Definition is_ClientError (e : exn) : bool :=
  match e with ClientError _ => true | _ => false end.

Definition error_code (e : exn) : option string :=
  match e with ClientError c => Some c | _ => None end.

(** The answer of a remote service or of a library function: a value or an
    exception. *)
Inductive reply (A : Type) : Type :=
| Reply (a : A)
| Fault (e : exn).
Arguments Reply {A} a.
Arguments Fault {A} e.

(** ** Effects *)

Inductive level : Type := INFO | WARNING | ERROR.

(** An f-string is kept as its text with [{}] for each hole, and the values
    that fill the holes. *)
Inductive arg : Type :=
| AStr (s : string)
| AInt (n : Z)
| ABool (b : bool)
| AExn (e : exn)
| AJson (j : json).

Inductive api_call : Type :=
| ListAgentRuntimes
| CreateAgentRuntime (agentRuntimeName containerUri networkMode roleArn : string)
| UpdateAgentRuntime (agentRuntimeId containerUri networkMode roleArn : string)
| GetAgentRuntime (agentRuntimeId : string)
| InvokeAgentRuntime (agentRuntimeArn qualifier payload : string)
| DescribeRepositories (repositoryNames : list string)
| DescribeImages (repositoryName : string)
| BatchDeleteImage (repositoryName : string) (imageDigests : list string).

Inductive event : Type :=
| Call (c : api_call)
| Log (l : level) (fmt : string) (args : list arg)
| WriteFile (path content : string).

(** How a computation ends: [return], an exception, or [sys.exit]
    ([SystemExit] is not an [Exception], so no handler of the scripts
    catches it). *)
Inductive outcome (A : Type) : Type :=
| Returned (a : A)
| Raised (e : exn)
| Exited (status : Z).
Arguments Returned {A} a.
Arguments Raised {A} e.
Arguments Exited {A} status.

Definition py (A : Type) : Type := (list event * outcome A)%type.

Definition trace {A} (m : py A) : list event := m.1.
Definition result {A} (m : py A) : outcome A := m.2.

#[global] Instance py_ret : MRet py := λ A a, ([], Returned a).

#[global] Instance py_bind : MBind py := λ A B k m,
  match m with
  | (t, Returned a) => let '(t', o) := k a in (t ++ t', o)
  | (t, Raised e) => (t, Raised e)
  | (t, Exited s) => (t, Exited s)
  end.

Definition emit (ev : event) : py unit := ([ev], Returned tt).

Definition log (l : level) (fmt : string) (args : list arg) : py unit :=
  emit (Log l fmt args).

Definition raise {A} (e : exn) : py A := ([], Raised e).

Definition sys_exit {A} (status : Z) : py A := ([], Exited status).

(** Issue a request; the client's answer decides how it ends. *)
Definition request {A} (c : api_call) (r : reply A) : py A :=
  ([Call c], match r with Reply a => Returned a | Fault e => Raised e end).

(** The result of a library function that may raise. *)
Definition lift {A} (r : reply A) : py A :=
  ([], match r with Reply a => Returned a | Fault e => Raised e end).

(** [try: body / except <catches> as e: handler e]. *)
Definition try_except {A} (body : py A) (catches : exn → bool)
    (handler : exn → py A) : py A :=
  match body with
  | (t, Raised e) =>
      if catches e then let '(t', o) := handler e in (t ++ t', o) else body
  | _ => body
  end.

Definition any_Exception (e : exn) : bool := true.

(** ** Strings *)

Definition newline : string := String (ascii_of_nat 10) EmptyString.
Definition dquote : string := String (ascii_of_nat 34) EmptyString.

(** The ASCII characters that [str.strip()] removes. *)
Definition isspace (c : ascii) : bool :=
  let n := nat_of_ascii c in
  ((9 <=? n)%nat && (n <=? 13)%nat) || ((28 <=? n)%nat && (n <=? 32)%nat).

Fixpoint lstrip (s : string) : string :=
  match s with
  | String c s' => if isspace c then lstrip s' else s
  | EmptyString => EmptyString
  end.

Fixpoint rstrip (s : string) : string :=
  match s with
  | String c s' =>
      match rstrip s' with
      | EmptyString => if isspace c then EmptyString else String c EmptyString
      | t => String c t
      end
  | EmptyString => EmptyString
  end.

(** [str.strip()]. *)
Definition strip (s : string) : string := rstrip (lstrip s).

(** ** The AgentCore control plane, as both [deploy_agent.py] and
    [test_agent.py] use it *)

Module AgentCore.

(** One entry of [list_agent_runtimes()['agentRuntimes']]; the three keys
    are in every entry the service returns. *)
Record agent_runtime : Type := {
  agentRuntimeName : string;
  agentRuntimeId : string;
  agentRuntimeArn : string
}.

(** The listing: the key [agentRuntimes] may be missing, the scripts read
    it with [.get('agentRuntimes', [])]. *)
Record listing : Type := { agentRuntimes : option (list agent_runtime) }.

(** The response of [create_agent_runtime] and [update_agent_runtime],
    read at its keys [agentRuntimeArn] and [agentRuntimeId]. *)
Record runtime_response : Type := {
  response_agentRuntimeArn : string;
  response_agentRuntimeId : string
}.

(** [boto3_client('bedrock-agentcore-control', region_name=region)];
    [get_agent_runtime] is kept as the [status] of its response. *)
Record control_client : Type := {
  list_agent_runtimes : reply listing;
  create_agent_runtime :
    string → string → string → string → reply runtime_response;
  update_agent_runtime :
    string → string → string → string → reply runtime_response;
  get_agent_runtime : string → reply string
}.

End AgentCore.

(** ** [scripts/deploy_agent.py] *)

Module DeployAgent.
Import AgentCore.

(** What the script finds around it: [role_arn.txt] ([None] when [open]
    raises [FileNotFoundError]) and the control-plane client of each
    region. *)
Record environment : Type := {
  role_arn_txt : option string;
  boto3_client : string → control_client
}.

(** The returned dict, keys [agent_arn], [agent_id], [ecr_uri]. *)
Record deployment : Type := {
  agent_arn : string;
  agent_id : string;
  ecr_uri : string
}.

(** Lines 43-49. *)
Definition read_role_arn (env : environment) : py string :=
  match role_arn_txt env with
  | Some content => mret (strip content)
  | None =>
      log ERROR "Error: role_arn.txt not found" [] ;;
      log ERROR
        "Please run create_iam_role.py first to create the execution role"
        [] ;;
      sys_exit 1
  end.

(** The [for] loop of lines 68-73; the result is [existing_agent]
    ([agent_exists] is set together with it). *)
Fixpoint scan_agents (agent_name : string) (agents : list agent_runtime)
    : py (option agent_runtime) :=
  match agents with
  | [] => mret None
  | agent :: rest =>
      log INFO "Found agent: {}" [AStr (agentRuntimeName agent)] ;;
      if String.eqb (agentRuntimeName agent) agent_name
      then mret (Some agent)
      else scan_agents agent_name rest
  end.

(** Lines 60-75: the listing, with every exception turned into a
    warning. *)
Definition find_existing (client : control_client) (agent_name : string)
    : py (option agent_runtime) :=
  try_except
    (existing_agents ← request ListAgentRuntimes (list_agent_runtimes client);
     let agents := default [] (agentRuntimes existing_agents) in
     log INFO "Found {} existing agents" [AInt (Z.of_nat (length agents))] ;;
     scan_agents agent_name agents)
    any_Exception
    (λ e, log WARNING "Error listing agents: {}" [AExn e] ;; mret None).

(** Lines 83-94. *)
Definition update_existing (client : control_client)
    (agent_name container_uri role_arn : string)
    (existing_agent : agent_runtime) : py runtime_response :=
  log INFO "Updating existing agent {} with update_agent_runtime"
    [AStr agent_name] ;;
  request
    (UpdateAgentRuntime (agentRuntimeId existing_agent) container_uri
       "PUBLIC" role_arn)
    (update_agent_runtime client (agentRuntimeId existing_agent)
       container_uri "PUBLIC" role_arn).

(** Lines 96-116. *)
Definition create_new (client : control_client)
    (agent_name container_uri role_arn : string) (auto_update : bool)
    : py runtime_response :=
  try_except
    (request
       (CreateAgentRuntime agent_name container_uri "PUBLIC" role_arn)
       (create_agent_runtime client agent_name container_uri "PUBLIC"
          role_arn))
    is_ClientError
    (λ e,
      if bool_decide (error_code e = Some "ConflictException") && auto_update
      then
        log INFO
          "Agent exists but wasn't detected in list. Attempting to find and update..."
          [] ;;
        log ERROR
          "Cannot update agent - unable to find agentRuntimeId. Please delete and recreate manually."
          [] ;;
        sys_exit 1
      else raise e).

(** The text written to [deployment_info.txt], lines 122-125. *)
Definition deployment_info (agent_arn agent_id container_uri : string)
    : string :=
  "agent_arn=" +:+ agent_arn +:+ newline +:+
  "agent_id=" +:+ agent_id +:+ newline +:+
  "ecr_uri=" +:+ container_uri +:+ newline.

(** Lines 58-139, the body guarded by [except ClientError]. *)
Definition reconcile (client : control_client)
    (agent_name container_uri role_arn : string) (auto_update : bool)
    : py deployment :=
  try_except
    (existing_agent ← find_existing client agent_name;
     log INFO "Agent {} exists: {}, auto_update: {}"
       [AStr agent_name; ABool (bool_decide (is_Some existing_agent));
        ABool auto_update] ;;
     response ←
       match existing_agent with
       | Some agent =>
           if negb auto_update
           then
             log ERROR "Agent {} already exists and auto-update is disabled"
               [AStr agent_name] ;;
             sys_exit 1
           else update_existing client agent_name container_uri role_arn agent
       | None => create_new client agent_name container_uri role_arn auto_update
       end;
     let agent_arn := response_agentRuntimeArn response in
     let agent_id := response_agentRuntimeId response in
     emit (WriteFile "deployment_info.txt"
             (deployment_info agent_arn agent_id container_uri)) ;;
     log INFO "Agent deployed successfully!" [] ;;
     log INFO "Agent ARN: {}" [AStr agent_arn] ;;
     log INFO "ECR URI: {}" [AStr container_uri] ;;
     mret {| agent_arn := agent_arn; agent_id := agent_id;
             ecr_uri := container_uri |})
    is_ClientError
    (λ e, log ERROR "AgentCore deployment failed: {}" [AExn e] ;; sys_exit 1).

Definition deploy_agent (env : environment)
    (agent_name region container_uri : string) (auto_update : bool)
    : py deployment :=
  role_arn ← read_role_arn env;
  log INFO "Deploying agent {}" [AStr agent_name] ;;
  log INFO "Platform: ARM64 (required by Bedrock AgentCore)" [] ;;
  log INFO "Using execution role: {}" [AStr role_arn] ;;
  reconcile (boto3_client env region) agent_name container_uri role_arn
    auto_update.

End DeployAgent.

(** ** [scripts/cleanup_ecr.py] *)

Module CleanupEcr.

(** One entry of [describe_images()['imageDetails']].  Both keys may be
    missing.  boto3 delivers [imagePushedAt] as a [datetime.datetime],
    kept here as its position on the time line. *)
Record image_detail : Type := {
  imageDigest : option string;
  imagePushedAt : option Z
}.

(** The values the sort key [x.get("imagePushedAt", 0)] takes: the
    [datetime] of the image, or the [int] 0. *)
Inductive sort_key : Type :=
| KInt (n : Z)
| KDatetime (t : Z).

Definition pushed_key (x : image_detail) : sort_key :=
  match imagePushedAt x with
  | Some t => KDatetime t
  | None => KInt 0
  end.

(** [a < b] on keys: Python 3 orders two [int]s and two [datetime]s, and
    raises [TypeError] for an [int] against a [datetime]. *)
Definition key_lt (a b : sort_key) : reply bool :=
  match a, b with
  | KInt x, KInt y => Reply (x <? y)%Z
  | KDatetime x, KDatetime y => Reply (x <? y)%Z
  | _, _ => Fault TypeError
  end.

(** [sorted(images, key=pushed_key, reverse=True)]: a stable sort by
    descending key, built from [<] on the keys, which fails as soon as a
    comparison does.  [insert_desc x l] puts [x] in front of the first
    element that is not newer than [x]. *)
Fixpoint insert_desc (x : image_detail) (l : list image_detail)
    : reply (list image_detail) :=
  match l with
  | [] => Reply [x]
  | y :: l' =>
      match key_lt (pushed_key x) (pushed_key y) with
      | Fault e => Fault e
      | Reply true =>
          match insert_desc x l' with
          | Reply r => Reply (y :: r)
          | Fault e => Fault e
          end
      | Reply false => Reply (x :: l)
      end
  end.

Fixpoint sorted_desc (l : list image_detail) : reply (list image_detail) :=
  match l with
  | [] => Reply []
  | x :: l' =>
      match sorted_desc l' with
      | Reply s => insert_desc x s
      | Fault e => Fault e
      end
  end.

(** The slice [l[start:]]: a negative [start] counts from the end, and
    both ends are clamped. *)
Definition slice_from {A} (l : list A) (start : Z) : list A :=
  let n := Z.of_nat (length l) in
  let i := if (start <? 0)%Z then Z.max (n + start) 0 else Z.min start n in
  drop (Z.to_nat i) l.

(** [boto3_client("ecr", region_name=region)]. *)
Record ecr_client : Type := {
  describe_repositories : list string → reply unit;
  describe_images : string → reply (list image_detail);
  batch_delete_image : string → list string → reply unit
}.

(** Lines 94-97: the digests of the images that have one. *)
Definition image_ids (images_to_delete : list image_detail) : list string :=
  omap imageDigest images_to_delete.

Definition process_repository (client : ecr_client) (repo_name : string)
    (keep_count : Z) : py unit :=
  try_except
    (images ← request (DescribeImages repo_name)
                (describe_images client repo_name);
     sorted_images ← lift (sorted_desc images);
     let images_to_delete := slice_from sorted_images keep_count in
     match images_to_delete with
     | _ :: _ =>
         match image_ids images_to_delete with
         | _ :: _ =>
             request
               (BatchDeleteImage repo_name (image_ids images_to_delete))
               (batch_delete_image client repo_name
                  (image_ids images_to_delete)) ;;
             log INFO "Deleted {} old images from {}"
               [AInt (Z.of_nat (length (image_ids images_to_delete)));
                AStr repo_name] ;;
             log INFO "Kept {} recent images"
               [AInt (Z.min (Z.of_nat (length sorted_images)) keep_count)]
         | [] => mret tt
         end
     | [] =>
         log INFO "Repository {} has {} images (within keep limit)"
           [AStr repo_name; AInt (Z.of_nat (length sorted_images))]
     end)
    any_Exception
    (λ e, log ERROR "Error processing repository {}: {}"
            [AStr repo_name; AExn e]).

Definition is_RepositoryNotFoundException (e : exn) : bool :=
  bool_decide (error_code e = Some "RepositoryNotFoundException").

Definition cleanup_ecr_images (boto3_client : string → ecr_client)
    (region : string) (keep_count : Z) (repository_name : string)
    : py unit :=
  let client := boto3_client region in
  try_except
    (request (DescribeRepositories [repository_name])
       (describe_repositories client [repository_name]) ;;
     log INFO "Processing repository: {}" [AStr repository_name] ;;
     process_repository client repository_name keep_count)
    is_RepositoryNotFoundException
    (λ _, log INFO "Repository {} not found, skipping cleanup"
            [AStr repository_name]).

End CleanupEcr.

(** ** [scripts/test_agent.py] *)

Module TestAgent.
Import AgentCore.

(** A [StreamingBody], given by what its [read()] does. *)
Inductive streaming_body : Type :=
| StreamingBody (read : reply bytes).

(** The value under the key [payload]: [bytes], or anything else, which
    is logged as it is. *)
Inductive payload_value : Type :=
| PayloadBytes (b : bytes)
| PayloadStr (s : string).

(** The dict returned by [invoke_agent_runtime]; each key may be
    missing. *)
Record invoke_response : Type := {
  response_body : option streaming_body;
  payload : option payload_value;
  statusCode : option Z;
  runtimeSessionId : option string
}.

(** [boto3_client("bedrock-agentcore", region_name=region)]:
    [invoke_agent_runtime(agentRuntimeArn, qualifier, payload)]. *)
Record runtime_client : Type := {
  invoke_agent_runtime : string → string → string → reply invoke_response
}.

Record environment : Type := {
  control : string → control_client;
  runtime : string → runtime_client
}.

(** *** [bytes.decode('utf-8')]

    A byte sequence decodes when it is well-formed UTF-8 (no overlong
    forms, no surrogates, nothing above U+10FFFF); the text is then the
    same sequence of bytes. *)
Definition in_range (lo hi b : N) : bool := ((lo <=? b) && (b <=? hi))%N.

Definition continuation (b : N) : bool := in_range 128 191 b.

Fixpoint well_formed_utf8 (l : list N) : bool :=
  match l with
  | [] => true
  | b0 :: l1 =>
      if (b0 <? 128)%N then well_formed_utf8 l1
      else if in_range 194 223 b0 then
        match l1 with
        | b1 :: l2 => continuation b1 && well_formed_utf8 l2
        | _ => false
        end
      else if in_range 224 239 b0 then
        match l1 with
        | b1 :: b2 :: l3 =>
            (if (b0 =? 224)%N then in_range 160 191 b1
             else if (b0 =? 237)%N then in_range 128 159 b1
             else continuation b1)
            && continuation b2 && well_formed_utf8 l3
        | _ => false
        end
      else if in_range 240 244 b0 then
        match l1 with
        | b1 :: b2 :: b3 :: l4 =>
            (if (b0 =? 240)%N then in_range 144 191 b1
             else if (b0 =? 244)%N then in_range 128 143 b1
             else continuation b1)
            && continuation b2 && continuation b3 && well_formed_utf8 l4
        | _ => false
        end
      else false
  end.

Definition decode_utf8 (b : bytes) : reply string :=
  if well_formed_utf8 (Byte.to_N <$> b)
  then Reply (string_of_list_byte b)
  else Fault UnicodeDecodeError.

(** *** The test battery, lines 94-105 *)
Definition test_cases : list string :=
  [ "What is 2 + 2?";
    "Calculate 15 * 7";
    "What is 100 / 4?";
    "What is the square root of 16?";
    "Calculate (5 + 3) * 2";
    "Hello, how are you?";
    "What can you help me with?";
    "Explain what 2^3 equals";
    "Can you solve 25 - 8?";
    "What is 0.5 + 0.3?" ].

(** [dumps({"prompt": prompt})] for a prompt that needs no escaping, as
    is the case of every entry of [test_cases]. *)
Definition dumps_test_case (prompt : string) : string :=
  "{" +:+ dquote +:+ "prompt" +:+ dquote +:+ ": " +:+
  dquote +:+ prompt +:+ dquote +:+ "}".

(** [s * n] on strings. *)
Fixpoint str_mul (s : string) (n : nat) : string :=
  match n with
  | O => EmptyString
  | S n' => s +:+ str_mul s n'
  end.

Definition is_JSONDecodeError (e : exn) : bool :=
  match e with JSONDecodeError => true | _ => false end.

(** Lines 61-65: the first runtime of that name, as [agent_arn] and
    [agent_id]. *)
Fixpoint find_runtime (agent_name : string) (runtimes : list agent_runtime)
    : option (string * string) :=
  match runtimes with
  | [] => None
  | runtime :: rest =>
      if String.eqb (agentRuntimeName runtime) agent_name
      then Some (agentRuntimeArn runtime, agentRuntimeId runtime)
      else find_runtime agent_name rest
  end.

(** Lines 55-75.  [None] stands for the [return False] of this part. *)
Definition resolve_agent (client : control_client) (agent_name : string)
    : py (option (string * string)) :=
  try_except
    (response ← request ListAgentRuntimes (list_agent_runtimes client);
     match find_runtime agent_name (default [] (agentRuntimes response)) with
     | Some (String c s as agent_arn, agent_id) =>
         log INFO "Found agent: {}" [AStr agent_arn] ;;
         mret (Some (agent_arn, agent_id))
     | _ =>
         log ERROR "Agent runtime '{}' not found" [AStr agent_name] ;;
         log ERROR "Please ensure the agent has been deployed successfully"
           [] ;;
         mret None
     end)
    any_Exception
    (λ e, log ERROR "Error finding agent runtime: {}" [AExn e] ;; mret None).

(** Lines 78-88.  [false] stands for the [return False] of this part. *)
Definition check_status (client : control_client) (agent_id : string)
    : py bool :=
  try_except
    (status ← request (GetAgentRuntime agent_id)
                (get_agent_runtime client agent_id);
     log INFO "Agent runtime status: {}" [AStr status] ;;
     if negb (String.eqb status "READY")
     then
       log ERROR "Agent is not ready (status: {}). Please wait and try again."
         [AStr status] ;;
       mret false
     else mret true)
    any_Exception
    (λ e, log ERROR "Could not check agent status: {}" [AExn e] ;; mret false).

Section Harness.

(** [json.loads], which raises [JSONDecodeError] on text that is not
    JSON. *)
Variable loads : string → reply json.

(** Lines 136-151. *)
Definition show_text (response_text : string) : py unit :=
  try_except
    (response_json ← lift (loads response_text);
     match response_json with
     | JDict d =>
         match d !! "content", d !! "message", d !! "text" with
         | Some v, _, _ => log INFO "Response: {}" [AJson v]
         | None, Some v, _ => log INFO "Response: {}" [AJson v]
         | None, None, Some v => log INFO "Response: {}" [AJson v]
         | None, None, None =>
             log INFO "Response (JSON): {}" [AJson response_json]
         end
     | _ => log INFO "Response: {}" [AJson response_json]
     end)
    is_JSONDecodeError
    (λ _, log INFO "Response: {}" [AStr response_text]).

(** Lines 129-162: read, decode and display one response. *)
Definition show_response (response : invoke_response) : py unit :=
  match response_body response, payload response with
  | Some (StreamingBody read), _ =>
      raw ← lift read;
      response_text ← lift (decode_utf8 raw);
      show_text response_text
  | None, Some (PayloadBytes b) =>
      response_text ← lift (decode_utf8 b);
      log INFO "Response: {}" [AStr response_text]
  | None, Some (PayloadStr s) => log INFO "Response: {}" [AStr s]
  | None, None =>
      log INFO "Test passed (HTTP {})" [AInt (default 200%Z (statusCode response))] ;;
      log INFO "Session ID: {}"
        [AStr (default "N/A" (runtimeSessionId response))]
  end.

(** Lines 122-162, the body of the [try]. *)
Definition invoke_case (client : runtime_client)
    (agent_arn prompt : string) : py unit :=
  response ← request
    (InvokeAgentRuntime agent_arn "DEFAULT" (dumps_test_case prompt))
    (invoke_agent_runtime client agent_arn "DEFAULT"
       (dumps_test_case prompt));
  show_response response.

(** One turn of the loop, lines 116-166: the new value of
    [all_passed]. *)
Definition run_case (client : runtime_client) (agent_arn : string)
    (total i : nat) (prompt : string) (all_passed : bool) : py bool :=
  log INFO (newline +:+ "[Test {}/{}] Question: {}")
    [AInt (Z.of_nat i); AInt (Z.of_nat total); AStr prompt] ;;
  log INFO (str_mul "-" 40) [] ;;
  try_except
    (invoke_case client agent_arn prompt ;; mret all_passed)
    any_Exception
    (λ e, log ERROR "Test failed: {}" [AExn e] ;; mret false).

(** [for i, test_case in enumerate(cases, i)], threading
    [all_passed]. *)
Fixpoint run_cases (client : runtime_client) (agent_arn : string)
    (total i : nat) (cases : list string) (all_passed : bool) : py bool :=
  match cases with
  | [] => mret all_passed
  | prompt :: rest =>
      all_passed' ← run_case client agent_arn total i prompt all_passed;
      run_cases client agent_arn total (S i) rest all_passed'
  end.

(** Lines 107-175, for a battery [cases]. *)
Definition run_battery (client : runtime_client)
    (agent_name agent_arn region : string) (cases : list string)
    : py bool :=
  log INFO "Testing agent: {}" [AStr agent_name] ;;
  log INFO "Agent ARN: {}" [AStr agent_arn] ;;
  log INFO "Region: {}" [AStr region] ;;
  log INFO (str_mul "=" 60) [] ;;
  all_passed ← run_cases client agent_arn (length cases) 1 cases true;
  log INFO (newline +:+ str_mul "=" 60) [] ;;
  if (all_passed : bool)
  then
    log INFO "All tests passed! Agent is functioning correctly." [] ;;
    mret true
  else
    log ERROR "Some tests failed! Please check the agent configuration."
      [] ;;
    mret false.

Definition test_agent (env : environment) (agent_name region : string)
    : py bool :=
  let control_client := control env region in
  found ← resolve_agent control_client agent_name;
  match found with
  | None => mret false
  | Some (agent_arn, agent_id) =>
      ready ← check_status control_client agent_id;
      if (ready : bool)
      then run_battery (runtime env region) agent_name agent_arn region
             test_cases
      else mret false
  end.

End Harness.

End TestAgent.

(** ** What a run shows to the outside *)

(** The requests sent to the remote services, in order. *)
Definition calls (t : list event) : list api_call :=
  omap (λ ev, match ev with Call c => Some c | _ => None end) t.

(** The files written, in order. *)
Definition written (t : list event) : list (string * string) :=
  omap (λ ev, match ev with WriteFile p c => Some (p, c) | _ => None end) t.

(** The [ERROR] lines. *)
Definition errors (t : list event) : list (string * list arg) :=
  omap (λ ev, match ev with Log ERROR f a => Some (f, a) | _ => None end) t.

Definition is_log (ev : event) : bool :=
  match ev with Log _ _ _ => true | _ => false end.

Definition is_update (c : api_call) : bool :=
  match c with UpdateAgentRuntime _ _ _ _ => true | _ => false end.

Definition is_create (c : api_call) : bool :=
  match c with CreateAgentRuntime _ _ _ _ => true | _ => false end.

(** The digests handed to [batch_delete_image], over the whole run. *)
Definition deleted (t : list event) : list string :=
  mjoin (omap (λ c, match c with
                     | BatchDeleteImage _ ids => Some ids
                     | _ => None
                     end) (calls t)).

(** The fatal endings of [deploy_agent]: each is [sys.exit(1)] after an
    [ERROR] line of its own. *)
Definition exits_after {A} (m : py A) (fmt : string) (args : list arg) : Prop :=
  result m = Exited 1 ∧ last (trace m) = Some (Log ERROR fmt args).

Definition Conflict {A} (agent_name : string) (m : py A) : Prop :=
  exits_after m "Agent {} already exists and auto-update is disabled"
    [AStr agent_name].

Definition AmbiguousConflict {A} (m : py A) : Prop :=
  exits_after m
    "Cannot update agent - unable to find agentRuntimeId. Please delete and recreate manually."
    [].

Definition DeploymentFailed {A} (e : exn) (m : py A) : Prop :=
  exits_after m "AgentCore deployment failed: {}" [AExn e].

(** The failure [e] of a request is fatal to the run: either the exception
    [e] itself reaches the caller, or it reaches the handler of lines
    137-139, which reports [e] and exits with status 1. *)
Definition fatal {A} (e : exn) (m : py A) : Prop :=
  result m = Raised e ∨ DeploymentFailed e m.

(** What the listing tells about [agent_name]: the first runtime of that
    name, and nothing when the listing itself fails. *)
Fixpoint first_named (agent_name : string)
    (agents : list AgentCore.agent_runtime) : option AgentCore.agent_runtime :=
  match agents with
  | [] => None
  | agent :: rest =>
      if String.eqb (AgentCore.agentRuntimeName agent) agent_name
      then Some agent
      else first_named agent_name rest
  end.

Definition listed (client : AgentCore.control_client) (agent_name : string)
    : option AgentCore.agent_runtime :=
  match AgentCore.list_agent_runtimes client with
  | Reply ls => first_named agent_name (default [] (AgentCore.agentRuntimes ls))
  | Fault _ => None
  end.

(** Whether an image carries [imagePushedAt], and the number by which two
    images of the same sort are ordered: the push time of a dated image, 0
    for an undated one. *)
Definition dated (x : CleanupEcr.image_detail) : bool :=
  bool_decide (is_Some (CleanupEcr.imagePushedAt x)).

Definition stamp (x : CleanupEcr.image_detail) : Z :=
  default 0%Z (CleanupEcr.imagePushedAt x).

(** [y] is not newer than [x]. *)
Definition not_newer (x y : CleanupEcr.image_detail) : Prop :=
  (stamp y ≤ stamp x)%Z.

(** The invocations of the runtime: ARN, qualifier and payload of each. *)
Definition invocations (t : list event) : list (string * string * string) :=
  omap (λ c, match c with
             | InvokeAgentRuntime arn q p => Some (arn, q, p)
             | _ => None
             end) (calls t).

Definition is_info (ev : event) : bool :=
  match ev with Log INFO _ _ => true | _ => false end.

(** The runtime [test_agent] goes on to test: the ARN of the first runtime
    of that name in the listing, provided it is not empty and the status
    of the runtime is [READY]. *)
Definition ready_arn (client : AgentCore.control_client) (agent_name : string)
    : option string :=
  match AgentCore.list_agent_runtimes client with
  | Reply ls =>
      match TestAgent.find_runtime agent_name
              (default [] (AgentCore.agentRuntimes ls)) with
      | Some (String c s as agent_arn, agent_id) =>
          match AgentCore.get_agent_runtime client agent_id with
          | Reply status =>
              if String.eqb status "READY" then Some agent_arn else None
          | Fault _ => None
          end
      | _ => None
      end
  | Fault _ => None
  end.

(** The outcome of one test case taken alone: whether its invocation and
    the reading of its response come to an end without an exception. *)
Definition case_outcome (loads : string → reply json)
    (client : TestAgent.runtime_client) (agent_arn prompt : string) : bool :=
  match result (TestAgent.invoke_case loads client agent_arn prompt) with
  | Returned _ => true
  | _ => false
  end.

(** The [ERROR] line of a failed case. *)
Definition failure_line (loads : string → reply json)
    (client : TestAgent.runtime_client) (agent_arn prompt : string)
    : option (string * list arg) :=
  match result (TestAgent.invoke_case loads client agent_arn prompt) with
  | Raised e => Some ("Test failed: {}", [AExn e])
  | _ => None
  end.

(** A response that can be read to its end: the body is read and is
    UTF-8, [loads] raises nothing but [JSONDecodeError]; or the payload,
    when it is [bytes], is UTF-8.  What the text says plays no part. *)
Definition legible (loads : string → reply json)
    (response : TestAgent.invoke_response) : bool :=
  match TestAgent.response_body response, TestAgent.payload response with
  | Some (TestAgent.StreamingBody (Reply raw)), _ =>
      match TestAgent.decode_utf8 raw with
      | Reply text =>
          match loads text with
          | Reply _ => true
          | Fault e => TestAgent.is_JSONDecodeError e
          end
      | Fault _ => false
      end
  | Some (TestAgent.StreamingBody (Fault _)), _ => false
  | None, Some (TestAgent.PayloadBytes b) =>
      match TestAgent.decode_utf8 b with
      | Reply _ => true
      | Fault _ => false
      end
  | None, _ => true
  end.

(** ** Concrete surroundings, for the examples *)

Module Examples.
Import AgentCore.

Definition runtime_named (n : string) : agent_runtime :=
  {| agentRuntimeName := n;
     agentRuntimeId := n +:+ "-Ab12Cd34";
     agentRuntimeArn := "arn:aws:bedrock-agentcore:us-east-1:123456789012:runtime/" +:+ n |}.

Definition answer (n : string) : runtime_response :=
  {| response_agentRuntimeArn := agentRuntimeArn (runtime_named n);
     response_agentRuntimeId := agentRuntimeId (runtime_named n) |}.

(** A control plane that answers every request of a kind alike. *)
Definition control_plane (list : reply listing)
    (create update : reply runtime_response) (status : reply string)
    : control_client :=
  {| list_agent_runtimes := list;
     create_agent_runtime := λ _ _ _ _, create;
     update_agent_runtime := λ _ _ _ _, update;
     get_agent_runtime := λ _, status |}.

Definition role_file : string :=
  "arn:aws:iam::123456789012:role/agentcore-runtime" +:+ newline.

Definition deploy_env (client : control_client) : DeployAgent.environment :=
  {| DeployAgent.role_arn_txt := Some role_file;
     DeployAgent.boto3_client := λ _, client |}.

Definition listing_of (names : list string) : reply listing :=
  Reply {| agentRuntimes := Some (runtime_named <$> names) |}.

(** The listing misses [myagent], yet creating it collides. *)
Definition race : control_client :=
  control_plane (listing_of ["other"])
    (Fault (ClientError "ConflictException")) (Reply (answer "myagent"))
    (Reply "READY").

(** The listing shows [myagent]. *)
Definition present : control_client :=
  control_plane (listing_of ["other"; "myagent"])
    (Fault (ClientError "ConflictException")) (Reply (answer "myagent"))
    (Reply "READY").

(** The listing cannot be had; creating works. *)
Definition listing_down : control_client :=
  control_plane (Fault (OtherException "EndpointConnectionError"))
    (Reply (answer "myagent")) (Reply (answer "myagent")) (Reply "READY").

(** The listing is empty and creating is refused. *)
Definition create_denied : control_client :=
  control_plane (listing_of [])
    (Fault (ClientError "AccessDeniedException")) (Reply (answer "myagent"))
    (Reply "READY").

(** *** Registries *)

Definition image (digest : string) (pushed : Z) : CleanupEcr.image_detail :=
  {| CleanupEcr.imageDigest := Some digest;
     CleanupEcr.imagePushedAt := Some pushed |}.

Definition undated_image (digest : string) : CleanupEcr.image_detail :=
  {| CleanupEcr.imageDigest := Some digest;
     CleanupEcr.imagePushedAt := None |}.


(** A registry with one repository, [agentcore], holding [images]. *)
Definition registry (images : list CleanupEcr.image_detail)
    : CleanupEcr.ecr_client :=
  {| CleanupEcr.describe_repositories := λ names,
       if bool_decide (names = ["agentcore"])
       then Reply tt
       else Fault (ClientError "RepositoryNotFoundException");
     CleanupEcr.describe_images := λ _, Reply images;
     CleanupEcr.batch_delete_image := λ _ _, Reply tt |}.

Definition three_images : list CleanupEcr.image_detail :=
  [image "sha256:b" 200; image "sha256:c" 300; image "sha256:a" 100].

(** Twelve images, three of them without [imagePushedAt]. *)
Definition twelve_images : list CleanupEcr.image_detail :=
  [image "sha256:01" 1001; image "sha256:02" 1002; undated_image "sha256:u1";
   image "sha256:03" 1003; image "sha256:04" 1004; image "sha256:05" 1005;
   undated_image "sha256:u2"; image "sha256:06" 1006; image "sha256:07" 1007;
   image "sha256:08" 1008; image "sha256:09" 1009; undated_image "sha256:u3"].

(** *** Deployed agents *)

(** [json.loads] on the texts of the examples: natural numbers in decimal
    notation, and texts in which no JSON value is to be found. *)
Definition is_digit (c : ascii) : bool :=
  ((48 <=? nat_of_ascii c) && (nat_of_ascii c <=? 57))%nat.

Definition loads (text : string) : reply json :=
  match list_ascii_of_string text with
  | [c] => if is_digit c then Reply (JNumber text) else Fault JSONDecodeError
  | c :: rest =>
      if is_digit c && negb (nat_of_ascii c =? 48)%nat && forallb is_digit rest
      then Reply (JNumber text)
      else Fault JSONDecodeError
  | [] => Fault JSONDecodeError
  end.

Definition streamed (text : string) : TestAgent.invoke_response :=
  {| TestAgent.response_body :=
       Some (TestAgent.StreamingBody (Reply (list_byte_of_string text)));
     TestAgent.payload := None;
     TestAgent.statusCode := Some 200%Z;
     TestAgent.runtimeSessionId := Some "session-1" |}.

(** An agent that answers every prompt with the same words, right or
    wrong. *)
Definition parrot : TestAgent.runtime_client :=
  {| TestAgent.invoke_agent_runtime := λ _ _ _, Reply (streamed "5") |}.

(** An agent whose connection breaks on the third prompt. *)
Definition flaky : TestAgent.runtime_client :=
  {| TestAgent.invoke_agent_runtime := λ _ _ payload,
       if String.eqb payload (TestAgent.dumps_test_case "What is 100 / 4?")
       then Fault (OtherException "ReadTimeoutError")
       else Reply (streamed "It is a pleasure to help.") |}.

Definition test_env (client : control_client)
    (agent : TestAgent.runtime_client) : TestAgent.environment :=
  {| TestAgent.control := λ _, client; TestAgent.runtime := λ _, agent |}.

(** The listing shows [myagent], which is still being created. *)
Definition creating : control_client :=
  control_plane (listing_of ["other"; "myagent"])
    (Fault (ClientError "ConflictException")) (Reply (answer "myagent"))
    (Reply "CREATING").

End Examples.

(** ** The entry point of the clean-up script

    [main] of [cleanup_ecr.py], from the parsed arguments on
    ([ArgumentParser] itself is not modelled). *)

Module CleanupEcrMain.

(** Lines 143-151, with [args.region], [args.keep_count] and
    [args.repository_name]. *)
Definition main (boto3_client : string → CleanupEcr.ecr_client)
    (region : string) (keep_count : Z) (repository_name : string) : py unit :=
  log INFO "Starting ECR cleanup in {}" [AStr region] ;;
  log INFO "Keeping {} most recent images per repository" [AInt keep_count] ;;
  CleanupEcr.cleanup_ecr_images boto3_client region keep_count
    repository_name ;;
  log INFO "ECR cleanup completed!" [].

End CleanupEcrMain.

(** ** The scripts from their first line

    The modules above start from clients that exist.  In the scripts
    [boto3_client(service, region_name=region)] is a step of the run,
    written outside every [try], and it raises when botocore refuses the
    region or the configuration; so does reading [role_arn.txt], of which
    only [FileNotFoundError] is handled.  Neither step sends a request. *)

Module DeployAgentScript.
Import AgentCore.

(** [open("role_arn.txt", "r", encoding="utf-8")] followed by
    [f.read()]: the text, or the exception raised on the way
    ([FileNotFoundError], [PermissionError], [UnicodeDecodeError], ...);
    and the creation of the control-plane client of a region. *)
Record environment : Type := {
  role_arn_txt : reply string;
  boto3_client : string → reply control_client
}.

Definition is_FileNotFoundError (e : exn) : bool :=
  match e with
  | OtherException name => String.eqb name "FileNotFoundError"
  | _ => false
  end.

(** Lines 43-139. *)
Definition deploy_agent (env : environment)
    (agent_name region container_uri : string) (auto_update : bool)
    : py DeployAgent.deployment :=
  role_arn ←
    try_except
      (content ← lift (role_arn_txt env); mret (strip content))
      is_FileNotFoundError
      (λ _,
        log ERROR "Error: role_arn.txt not found" [] ;;
        log ERROR
          "Please run create_iam_role.py first to create the execution role"
          [] ;;
        sys_exit 1);
  log INFO "Deploying agent {}" [AStr agent_name] ;;
  log INFO "Platform: ARM64 (required by Bedrock AgentCore)" [] ;;
  log INFO "Using execution role: {}" [AStr role_arn] ;;
  agentcore_client ← lift (boto3_client env region);
  DeployAgent.reconcile agentcore_client agent_name container_uri role_arn
    auto_update.

End DeployAgentScript.

Module CleanupEcrScript.

(** Lines 57-66. *)
Definition cleanup_ecr_images
    (boto3_client : string → reply CleanupEcr.ecr_client)
    (region : string) (keep_count : Z) (repository_name : string)
    : py unit :=
  ecr_client ← lift (boto3_client region);
  CleanupEcr.cleanup_ecr_images (λ _, ecr_client) region keep_count
    repository_name.

End CleanupEcrScript.

Module TestAgentScript.

(** The two clients of [test_agent]: [bedrock-agentcore-control] (line
    54) and [bedrock-agentcore] (line 91). *)
Record environment : Type := {
  control : string → reply AgentCore.control_client;
  runtime : string → reply TestAgent.runtime_client
}.

(** Lines 53-175. *)
Definition test_agent (loads : string → reply json) (env : environment)
    (agent_name region : string) : py bool :=
  control_client ← lift (control env region);
  found ← TestAgent.resolve_agent control_client agent_name;
  match found with
  | None => mret false
  | Some (agent_arn, agent_id) =>
      ready ← TestAgent.check_status control_client agent_id;
      if (ready : bool)
      then
        client ← lift (runtime env region);
        TestAgent.run_battery loads client agent_name agent_arn region
          TestAgent.test_cases
      else mret false
  end.

(** Lines 206-215, with [args.agent_name] and [args.region]. *)
Definition main (loads : string → reply json) (env : environment)
    (agent_name region : string) : py unit :=
  log INFO "Starting integration tests for agent: {}" [AStr agent_name] ;;
  passed ← test_agent loads env agent_name region;
  if negb passed
  then log ERROR (newline +:+ "Test suite failed!") [] ;; sys_exit 1
  else log INFO (newline +:+ "Test suite completed successfully!") [].

End TestAgentScript.

Module ScriptExamples.

(** A region for which botocore makes no client. *)
Definition no_client {A} : string → reply A :=
  λ _, Fault (OtherException "InvalidRegionError").

(** The test harness where only the runtime client cannot be made. *)
Definition half_made : TestAgentScript.environment :=
  {| TestAgentScript.control := λ _, Reply Examples.present;
     TestAgentScript.runtime := no_client |}.

End ScriptExamples.

(** ** [scripts/create_guardrail.py] *)

Module CreateGuardrail.

(** One entry of [list_guardrails()['guardrails']], read at its keys
    [name] and [id]. *)
Record guardrail_summary : Type := {
  summary_name : string;
  summary_id : string
}.

(** The listing, read with [.get('guardrails', [])]. *)
Record guardrail_listing : Type := {
  guardrails : option (list guardrail_summary)
}.

(** One entry of [contentPolicyConfig['filtersConfig']]. *)
Record content_filter : Type := {
  filter_type : string;
  inputStrength : string;
  outputStrength : string
}.

Inductive bedrock_call : Type :=
| ListGuardrails
| CreateGuardrail (name description : string) (filtersConfig : list content_filter)
    (blockedInputMessaging blockedOutputsMessaging : string)
| CreateGuardrailVersion (guardrailIdentifier description : string).

(** [boto3_client("bedrock", region_name=region)]; [create_guardrail] is
    kept as the [guardrailId] of its response and
    [create_guardrail_version] as the [version] of its response. *)
Record bedrock_client : Type := {
  list_guardrails : reply guardrail_listing;
  create_guardrail :
    string → string → list content_filter → string → string → reply string;
  create_guardrail_version : string → string → reply string
}.

(** The effects of this script, and the monad of its computations. *)
Inductive effect : Type :=
| Request (c : bedrock_call)
| Logged (l : level) (fmt : string) (args : list arg)
| Wrote (path content : string).

Definition run (A : Type) : Type := (list effect * outcome A)%type.

#[global] Instance run_ret : MRet run := λ A a, ([], Returned a).

#[global] Instance run_bind : MBind run := λ A B k m,
  match m with
  | (t, Returned a) => let '(t', o) := k a in (t ++ t', o)
  | (t, Raised e) => (t, Raised e)
  | (t, Exited s) => (t, Exited s)
  end.

Definition send {A} (c : bedrock_call) (r : reply A) : run A :=
  ([Request c], match r with Reply a => Returned a | Fault e => Raised e end).

Definition logged (l : level) (fmt : string) (args : list arg) : run unit :=
  ([Logged l fmt args], Returned tt).

Definition write (path content : string) : run unit :=
  ([Wrote path content], Returned tt).

Definition reraise {A} (e : exn) : run A := ([], Raised e).

(** [try: body / except <catches> as e: handler e]. *)
Definition attempt {A} (body : run A) (catches : exn → bool)
    (handler : exn → run A) : run A :=
  match body with
  | (t, Raised e) =>
      if catches e then let '(t', o) := handler e in (t ++ t', o) else body
  | _ => body
  end.

(** Lines 36-39: the first guardrail of that name. *)
Fixpoint find_guardrail (guardrail_name : string)
    (listing : list guardrail_summary) : option guardrail_summary :=
  match listing with
  | [] => None
  | guardrail :: rest =>
      if String.eqb (summary_name guardrail) guardrail_name
      then Some guardrail
      else find_guardrail guardrail_name rest
  end.

Definition guardrail_name : string := "AgentCore-Minimal-Guardrail".

Definition guardrail_description : string :=
  "Minimal guardrail for AgentCore agents with basic content filtering".

(** Lines 45-63. *)
Definition filtersConfig : list content_filter :=
  [ {| filter_type := "HATE"; inputStrength := "HIGH"; outputStrength := "HIGH" |};
    {| filter_type := "VIOLENCE"; inputStrength := "HIGH"; outputStrength := "HIGH" |};
    {| filter_type := "SEXUAL"; inputStrength := "HIGH"; outputStrength := "HIGH" |} ].

Definition blockedInputMessaging : string :=
  "I can't process that request due to content policy.".

Definition blockedOutputsMessaging : string :=
  "I can't provide that response due to content policy.".

Definition version_description : string :=
  "Version 1 - Active guardrail with HIGH strength filtering".

(** Lines 72-80. *)
Definition create_version (client : bedrock_client) (guardrail_id : string)
    : run unit :=
  attempt
    (version ← send (CreateGuardrailVersion guardrail_id version_description)
                 (create_guardrail_version client guardrail_id
                    version_description);
     logged INFO "Created guardrail version: {}" [AStr version])
    is_ClientError
    (λ version_error,
      logged WARNING "Could not create guardrail version: {}"
        [AExn version_error] ;;
      logged INFO "Guardrail will use DRAFT version" []).

Definition create_minimal_guardrail (boto3_client : string → bedrock_client)
    (region : string) : run string :=
  let client := boto3_client region in
  attempt
    (response ← send ListGuardrails (list_guardrails client);
     match find_guardrail guardrail_name (default [] (guardrails response)) with
     | Some guardrail =>
         logged INFO "Guardrail {} already exists: {}"
           [AStr guardrail_name; AStr (summary_id guardrail)] ;;
         mret (summary_id guardrail)
     | None =>
         guardrail_id ←
           send
             (CreateGuardrail guardrail_name guardrail_description
                filtersConfig blockedInputMessaging blockedOutputsMessaging)
             (create_guardrail client guardrail_name guardrail_description
                filtersConfig blockedInputMessaging blockedOutputsMessaging);
         logged INFO "Created guardrail: {} (ID: {})"
           [AStr guardrail_name; AStr guardrail_id] ;;
         create_version client guardrail_id ;;
         write "guardrail_id.txt" guardrail_id ;;
         mret guardrail_id
     end)
    is_ClientError
    (λ e, logged WARNING "Error creating guardrail: {}" [AExn e] ;; reraise e).

(** The requests sent and the files written, in order. *)
Definition requests (t : list effect) : list bedrock_call :=
  omap (λ ev, match ev with Request c => Some c | _ => None end) t.

Definition files (t : list effect) : list (string * string) :=
  omap (λ ev, match ev with Wrote p c => Some (p, c) | _ => None end) t.

Definition warnings (t : list effect) : list (string * list arg) :=
  omap (λ ev, match ev with Logged WARNING f a => Some (f, a) | _ => None end) t.

End CreateGuardrail.

(** ** More of what a run shows *)

(** The batches handed to [batch_delete_image]: repository and digests. *)
Definition batch_deletes (t : list event) : list (string * list string) :=
  omap (λ c, match c with
             | BatchDeleteImage repo ids => Some (repo, ids)
             | _ => None
             end) (calls t).

(** The create or update request that [deploy_agent] sends once the
    listing is known, if any. *)
Definition planned (client : AgentCore.control_client)
    (agent_name container_uri role_arn : string) (auto_update : bool)
    : option (api_call * reply AgentCore.runtime_response) :=
  match listed client agent_name with
  | Some agent =>
      if auto_update
      then Some (UpdateAgentRuntime (AgentCore.agentRuntimeId agent)
                   container_uri "PUBLIC" role_arn,
                 AgentCore.update_agent_runtime client
                   (AgentCore.agentRuntimeId agent) container_uri "PUBLIC"
                   role_arn)
      else None
  | None =>
      Some (CreateAgentRuntime agent_name container_uri "PUBLIC" role_arn,
            AgentCore.create_agent_runtime client agent_name container_uri
              "PUBLIC" role_arn)
  end.

(** The runtime that [test_agent] finds in the listing: ARN and id of the
    first runtime of that name, when the ARN is not empty. *)
Definition found_runtime (client : AgentCore.control_client)
    (agent_name : string) : option (string * string) :=
  match AgentCore.list_agent_runtimes client with
  | Reply ls =>
      match TestAgent.find_runtime agent_name
              (default [] (AgentCore.agentRuntimes ls)) with
      | Some (String c s as agent_arn, agent_id) => Some (agent_arn, agent_id)
      | _ => None
      end
  | Fault _ => None
  end.

(** A text without a line break. *)
Fixpoint one_line (s : string) : bool :=
  match s with
  | EmptyString => true
  | String c s' => negb (Ascii.eqb c (ascii_of_nat 10)) && one_line s'
  end.

(** ** More concrete surroundings *)

Module MoreExamples.

Definition no_role_file (client : AgentCore.control_client)
    : DeployAgent.environment :=
  {| DeployAgent.role_arn_txt := None;
     DeployAgent.boto3_client := λ _, client |}.

(** A registry whose images cannot be listed. *)
Definition unreadable : CleanupEcr.ecr_client :=
  {| CleanupEcr.describe_repositories := λ _, Reply tt;
     CleanupEcr.describe_images := λ _, Fault (ClientError "AccessDeniedException");
     CleanupEcr.batch_delete_image := λ _ _, Reply tt |}.

(** A registry that lists its images and refuses to delete them. *)
Definition read_only (images : list CleanupEcr.image_detail)
    : CleanupEcr.ecr_client :=
  {| CleanupEcr.describe_repositories := λ _, Reply tt;
     CleanupEcr.describe_images := λ _, Reply images;
     CleanupEcr.batch_delete_image := λ _ _,
       Fault (ClientError "AccessDeniedException") |}.

(** A registry that cannot be reached. *)
Definition unreachable : CleanupEcr.ecr_client :=
  {| CleanupEcr.describe_repositories := λ _,
       Fault (OtherException "EndpointConnectionError");
     CleanupEcr.describe_images := λ _, Reply [];
     CleanupEcr.batch_delete_image := λ _ _, Reply tt |}.

Definition undated_images : list CleanupEcr.image_detail :=
  [Examples.undated_image "sha256:p"; Examples.undated_image "sha256:q";
   Examples.undated_image "sha256:r"].

(** Two images pushed at the same time among four. *)
Definition tied_images : list CleanupEcr.image_detail :=
  [Examples.image "sha256:a" 100; Examples.image "sha256:b" 200;
   Examples.image "sha256:c" 100; Examples.image "sha256:d" 300].

(** The status of the runtime cannot be queried. *)
Definition status_down : AgentCore.control_client :=
  Examples.control_plane (Examples.listing_of ["myagent"])
    (Fault (ClientError "ConflictException")) (Reply (Examples.answer "myagent"))
    (Fault (ClientError "ThrottlingException")).

Definition guardrail_service
    (listing : reply CreateGuardrail.guardrail_listing)
    (created version : reply string) : CreateGuardrail.bedrock_client :=
  {| CreateGuardrail.list_guardrails := listing;
     CreateGuardrail.create_guardrail := λ _ _ _ _ _, created;
     CreateGuardrail.create_guardrail_version := λ _ _, version |}.

Definition guardrails_of (entries : list (string * string))
    : reply CreateGuardrail.guardrail_listing :=
  Reply {| CreateGuardrail.guardrails :=
             Some ((λ e, {| CreateGuardrail.summary_name := e.1;
                            CreateGuardrail.summary_id := e.2 |}) <$> entries) |}.

(** The guardrail is there already. *)
Definition guarded : CreateGuardrail.bedrock_client :=
  guardrail_service
    (guardrails_of [("other", "gr-1"); ("AgentCore-Minimal-Guardrail", "gr-2")])
    (Reply "gr-3") (Reply "1").

(** No guardrail yet; creating works, versions are refused. *)
Definition draft_only : CreateGuardrail.bedrock_client :=
  guardrail_service (guardrails_of [("other", "gr-1")])
    (Reply "gr-3") (Fault (ClientError "ValidationException")).

(** No guardrail yet, and creating is refused. *)
Definition refused : CreateGuardrail.bedrock_client :=
  guardrail_service (guardrails_of [])
    (Fault (ClientError "AccessDeniedException")) (Reply "1").

End MoreExamples.

(** * Properties *)

(** ** The monad *)

Lemma bind_returned {A B} (m : py A) (k : A → py B) t a :
  m = (t, Returned a) → m ≫= k = (t ++ trace (k a), result (k a)).
Proof. intros ->. unfold mbind, py_bind. by destruct (k a). Qed.

Lemma bind_ret_l {A B} (a : A) (k : A → py B) : mret a ≫= k = k a.
Proof. unfold mbind, mret, py_bind, py_ret. by destruct (k a). Qed.

Lemma bind_ret_r {A} (m : py A) : m ≫= mret = m.
Proof.
  destruct m as [t [a|e|s]]; unfold mbind, mret, py_bind, py_ret; simpl;
    by rewrite ?app_nil_r.
Qed.

Lemma bind_assoc {A B C} (m : py A) (f : A → py B) (g : B → py C) :
  (m ≫= f) ≫= g = m ≫= (λ x, f x ≫= g).
Proof.
  destruct m as [t [a|e|s]]; unfold mbind, py_bind; simpl; try done.
  destruct (f a) as [t1 [b|e|s]]; simpl; try done.
  destruct (g b) as [t2 o]. by rewrite app_assoc.
Qed.

(** Unfold the monad on a computation whose shape is known. *)
Ltac py_run :=
  repeat (progress
            (unfold mbind, mret, py_bind, py_ret, try_except, request, lift,
               log, emit, raise, sys_exit, trace, result;
             simpl)).

Lemma calls_app t1 t2 : calls (t1 ++ t2) = calls t1 ++ calls t2.
Proof. apply omap_app. Qed.

Lemma written_app t1 t2 : written (t1 ++ t2) = written t1 ++ written t2.
Proof. apply omap_app. Qed.

Lemma calls_logs t : forallb is_log t = true → calls t = [].
Proof.
  induction t as [|[] t IH]; simpl; intros H; try discriminate; auto.
Qed.

Lemma written_logs t : forallb is_log t = true → written t = [].
Proof.
  induction t as [|[] t IH]; simpl; intros H; try discriminate; auto.
Qed.

Lemma errors_app t1 t2 : errors (t1 ++ t2) = errors t1 ++ errors t2.
Proof. apply omap_app. Qed.

Lemma last_suffix {A} (l1 l2 : list A) x :
  last l2 = Some x → last (l1 ++ l2) = Some x.
Proof.
  intros H. induction l1 as [|a l1 IH]; simpl; auto.
  destruct (l1 ++ l2); [discriminate | exact IH].
Qed.

Lemma last_cons_suffix {A} (a : A) l x : last l = Some x → last (a :: l) = Some x.
Proof. destruct l; [discriminate | done]. Qed.

(** The last event of a trace that ends in a known event. *)
Ltac last_event :=
  repeat first [ reflexivity | apply last_suffix | apply last_cons_suffix ].

(** The requests and files of a trace made of known events and of runs of
    log lines. *)
Ltac observe :=
  repeat (progress
    (simpl; rewrite ?calls_app, ?written_app;
     repeat match goal with
            | H : forallb is_log ?t = true |- context [calls ?t] =>
                rewrite (calls_logs t H)
            | H : forallb is_log ?t = true |- context [written ?t] =>
                rewrite (written_logs t H)
            end));
  try reflexivity.

(** ** The reconciler *)

Section ReconcilerProperties.
Import AgentCore DeployAgent.

Lemma first_named_None agent_name agents :
  first_named agent_name agents = None ↔
  Forall (λ a, agentRuntimeName a ≠ agent_name) agents.
Proof.
  induction agents as [|a agents IH]; simpl.
  - split; auto.
  - destruct (String.eqb_spec (agentRuntimeName a) agent_name) as [E|E].
    + split; [discriminate|]. intros H. by inversion H.
    + rewrite IH. split; [by constructor | by inversion 1].
Qed.

Lemma first_named_Some agent_name agents a :
  a ∈ agents → agentRuntimeName a = agent_name →
  ∃ b, first_named agent_name agents = Some b
       ∧ b ∈ agents ∧ agentRuntimeName b = agent_name.
Proof.
  intros Hin Ha.
  destruct (first_named agent_name agents) as [b|] eqn:E.
  - exists b. split; [done|]. clear Hin.
    induction agents as [|c agents IH]; simpl in E; [done|].
    destruct (String.eqb_spec (agentRuntimeName c) agent_name) as [E'|E'].
    + injection E as <-. split; [left | done].
    + destruct (IH E) as [? ?]. split; [by right | done].
  - apply first_named_None in E. rewrite Forall_forall in E.
    by destruct (E a Hin).
Qed.

Lemma scan_agents_spec agent_name agents :
  ∃ t, scan_agents agent_name agents
       = (t, Returned (first_named agent_name agents))
       ∧ forallb is_log t = true.
Proof.
  induction agents as [|a agents (t & IH & Ht)]; simpl.
  - by exists [].
  - py_run. destruct (String.eqb _ _).
    + by eexists.
    + rewrite IH. by eexists.
Qed.

Lemma find_existing_spec client agent_name :
  ∃ t, find_existing client agent_name
       = (Call ListAgentRuntimes :: t, Returned (listed client agent_name))
       ∧ forallb is_log t = true.
Proof.
  unfold find_existing, listed.
  destruct (list_agent_runtimes client) as [ls|e]; py_run.
  - destruct (scan_agents_spec agent_name (default [] (agentRuntimes ls)))
      as (t & -> & Ht).
    by eexists.
  - by eexists.
Qed.

Lemma find_existing_fault client agent_name e :
  list_agent_runtimes client = Fault e →
  find_existing client agent_name =
    ([Call ListAgentRuntimes; Log WARNING "Error listing agents: {}" [AExn e]],
     Returned None).
Proof. intros Hls. unfold find_existing. rewrite Hls. reflexivity. Qed.

Lemma read_role_arn_present env role :
  role_arn_txt env = Some role → read_role_arn env = ([], Returned (strip role)).
Proof. intros H. unfold read_role_arn. rewrite H. reflexivity. Qed.

(** [deploy_agent] when the listing does not show the target: the
    create path. *)
Lemma deploy_agent_unlisted env agent_name region container_uri auto_update role :
  role_arn_txt env = Some role →
  ∃ t1 t2, forallb is_log t1 = true ∧ forallb is_log t2 = true ∧
    (∀ t, find_existing (boto3_client env region) agent_name
          = (Call ListAgentRuntimes :: t, Returned None) →
          ∀ ev, ev ∈ t → ev ∈ t2) ∧
    (listed (boto3_client env region) agent_name = None →
    deploy_agent env agent_name region container_uri auto_update =
    let create :=
      Call (CreateAgentRuntime agent_name container_uri "PUBLIC" (strip role)) in
    match create_agent_runtime (boto3_client env region) agent_name
            container_uri "PUBLIC" (strip role) with
    | Reply response =>
        (t1 ++ Call ListAgentRuntimes :: t2 ++
         [create;
          WriteFile "deployment_info.txt"
            (deployment_info (response_agentRuntimeArn response)
               (response_agentRuntimeId response) container_uri);
          Log INFO "Agent deployed successfully!" [];
          Log INFO "Agent ARN: {}" [AStr (response_agentRuntimeArn response)];
          Log INFO "ECR URI: {}" [AStr container_uri]],
         Returned {| agent_arn := response_agentRuntimeArn response;
                     agent_id := response_agentRuntimeId response;
                     ecr_uri := container_uri |})
    | Fault e =>
        if is_ClientError e then
          if bool_decide (error_code e = Some "ConflictException") && auto_update
          then
            (t1 ++ Call ListAgentRuntimes :: t2 ++
             [create;
              Log INFO
                "Agent exists but wasn't detected in list. Attempting to find and update..."
                [];
              Log ERROR
                "Cannot update agent - unable to find agentRuntimeId. Please delete and recreate manually."
                []],
             Exited 1)
          else
            (t1 ++ Call ListAgentRuntimes :: t2 ++
             [create; Log ERROR "AgentCore deployment failed: {}" [AExn e]],
             Exited 1)
        else (t1 ++ Call ListAgentRuntimes :: t2 ++ [create], Raised e)
    end).
Proof.
  intros Hrole.
  destruct (find_existing_spec (boto3_client env region) agent_name)
    as (t & Hfind & Ht).
  exists [Log INFO "Deploying agent {}" [AStr agent_name];
           Log INFO "Platform: ARM64 (required by Bedrock AgentCore)" [];
           Log INFO "Using execution role: {}" [AStr (strip role)]],
         (t ++ [Log INFO "Agent {} exists: {}, auto_update: {}"
                 [AStr agent_name; ABool false; ABool auto_update]]).
  split; [reflexivity|]. split.
  { rewrite forallb_app, Ht. reflexivity. }
  split.
  { intros t' Hfind' ev Hev. rewrite Hfind in Hfind'.
    injection Hfind' as -> _. apply elem_of_app. by left. }
  intros Hlisted. rewrite Hlisted in Hfind.
  unfold deploy_agent, reconcile, create_new.
  rewrite (read_role_arn_present _ _ Hrole). py_run. rewrite Hfind. py_run.
  destruct (create_agent_runtime _ _ _ _ _) as [response|e]; py_run.
  - rewrite <- !app_assoc. reflexivity.
  - destruct e as [code| | | |]; py_run;
      try (rewrite <- !app_assoc; reflexivity).
    destruct (bool_decide _ && auto_update); py_run;
      rewrite <- !app_assoc; reflexivity.
Qed.

(** [deploy_agent] when the listing shows the target. *)
Lemma deploy_agent_listed env agent_name region container_uri auto_update role agent :
  role_arn_txt env = Some role →
  listed (boto3_client env region) agent_name = Some agent →
  ∃ t1 t2, forallb is_log t1 = true ∧ forallb is_log t2 = true ∧
    deploy_agent env agent_name region container_uri auto_update =
    let update :=
      Call (UpdateAgentRuntime (agentRuntimeId agent) container_uri "PUBLIC"
              (strip role)) in
    if auto_update then
      match update_agent_runtime (boto3_client env region)
              (agentRuntimeId agent) container_uri "PUBLIC" (strip role) with
      | Reply response =>
          (t1 ++ Call ListAgentRuntimes :: t2 ++
           [update;
            WriteFile "deployment_info.txt"
              (deployment_info (response_agentRuntimeArn response)
                 (response_agentRuntimeId response) container_uri);
            Log INFO "Agent deployed successfully!" [];
            Log INFO "Agent ARN: {}" [AStr (response_agentRuntimeArn response)];
            Log INFO "ECR URI: {}" [AStr container_uri]],
           Returned {| agent_arn := response_agentRuntimeArn response;
                       agent_id := response_agentRuntimeId response;
                       ecr_uri := container_uri |})
      | Fault e =>
          if is_ClientError e then
            (t1 ++ Call ListAgentRuntimes :: t2 ++
             [update; Log ERROR "AgentCore deployment failed: {}" [AExn e]],
             Exited 1)
          else (t1 ++ Call ListAgentRuntimes :: t2 ++ [update], Raised e)
      end
    else
      (t1 ++ Call ListAgentRuntimes :: t2 ++
       [Log ERROR "Agent {} already exists and auto-update is disabled"
          [AStr agent_name]],
       Exited 1).
Proof.
  intros Hrole Hlisted.
  destruct (find_existing_spec (boto3_client env region) agent_name)
    as (t & Hfind & Ht).
  rewrite Hlisted in Hfind.
  destruct auto_update.
  - exists [Log INFO "Deploying agent {}" [AStr agent_name];
           Log INFO "Platform: ARM64 (required by Bedrock AgentCore)" [];
           Log INFO "Using execution role: {}" [AStr (strip role)]],
         (t ++ [Log INFO "Agent {} exists: {}, auto_update: {}"
                 [AStr agent_name; ABool true; ABool true];
               Log INFO "Updating existing agent {} with update_agent_runtime"
                 [AStr agent_name]]).
  split; [reflexivity|]. split.
    { rewrite forallb_app, Ht. reflexivity. }
    unfold deploy_agent, reconcile, update_existing.
    rewrite (read_role_arn_present _ _ Hrole). py_run. rewrite Hfind. py_run.
    destruct (update_agent_runtime _ _ _ _ _) as [response|e]; py_run.
    + rewrite <- !app_assoc. reflexivity.
    + destruct e; py_run; rewrite <- !app_assoc; reflexivity.
  - exists [Log INFO "Deploying agent {}" [AStr agent_name];
           Log INFO "Platform: ARM64 (required by Bedrock AgentCore)" [];
           Log INFO "Using execution role: {}" [AStr (strip role)]],
         (t ++ [Log INFO "Agent {} exists: {}, auto_update: {}"
                 [AStr agent_name; ABool true; ABool false]]).
  split; [reflexivity|]. split.
    { rewrite forallb_app, Ht. reflexivity. }
    unfold deploy_agent, reconcile.
    rewrite (read_role_arn_present _ _ Hrole). py_run. rewrite Hfind. py_run.
    rewrite <- !app_assoc. reflexivity.
Qed.

(** C1, as the code has it.  The target is absent from the listing and
    the create call fails with a naming conflict.  Nothing but the listing
    and this one create call is sent (so no update call), and no
    deployment record is written.  With [auto_update] the run ends as
    [AmbiguousConflict].  Without it the handler of the create call
    re-raises the very same [ConflictException]; the exception does not
    leave [deploy_agent], whose final handler reports it and exits with
    status 1. *)
Theorem create_conflict_after_absent_listing
    env agent_name region container_uri auto_update role ls e :
  role_arn_txt env = Some role →
  list_agent_runtimes (boto3_client env region) = Reply ls →
  Forall (λ a, agentRuntimeName a ≠ agent_name)
    (default [] (agentRuntimes ls)) →
  create_agent_runtime (boto3_client env region) agent_name container_uri
    "PUBLIC" (strip role) = Fault e →
  error_code e = Some "ConflictException" →
  let run := deploy_agent env agent_name region container_uri auto_update in
  calls (trace run) =
    [ListAgentRuntimes;
     CreateAgentRuntime agent_name container_uri "PUBLIC" (strip role)]
  ∧ Forall (λ c, is_update c = false) (calls (trace run))
  ∧ written (trace run) = []
  ∧ if auto_update
    then AmbiguousConflict run
    else result (create_new (boto3_client env region) agent_name
                   container_uri (strip role) false) = Raised e
         ∧ DeploymentFailed e run.
Proof.
  intros Hrole Hls Habs Hcreate Hcode run.
  assert (listed (boto3_client env region) agent_name = None) as Hlisted.
  { unfold listed. rewrite Hls. by apply first_named_None. }
  destruct (deploy_agent_unlisted env agent_name region container_uri
              auto_update role Hrole) as (t1 & t2 & Ht1 & Ht2 & _ & Hrun).
  specialize (Hrun Hlisted). rewrite Hcreate in Hrun.
  destruct e as [code| | | |]; try discriminate. injection Hcode as ->.
  unfold create_new. rewrite Hcreate.
  subst run. rewrite Hrun.
  unfold AmbiguousConflict, DeploymentFailed, exits_after.
  destruct auto_update; simpl.
  - assert (calls (t1 ++ Call ListAgentRuntimes :: t2 ++
                   [Call (CreateAgentRuntime agent_name container_uri "PUBLIC"
                            (strip role));
                    Log INFO
                      "Agent exists but wasn't detected in list. Attempting to find and update..."
                      [];
                    Log ERROR
                      "Cannot update agent - unable to find agentRuntimeId. Please delete and recreate manually."
                      []])
            = [ListAgentRuntimes;
               CreateAgentRuntime agent_name container_uri "PUBLIC" (strip role)])
      as -> by by observe.
    split; [done|]. split; [by repeat constructor|].
    split; [by observe|]. split; [done | last_event].
  - assert (calls (t1 ++ Call ListAgentRuntimes :: t2 ++
                   [Call (CreateAgentRuntime agent_name container_uri "PUBLIC"
                            (strip role));
                    Log ERROR "AgentCore deployment failed: {}"
                      [AExn (ClientError "ConflictException")]])
            = [ListAgentRuntimes;
               CreateAgentRuntime agent_name container_uri "PUBLIC" (strip role)])
      as -> by by observe.
    split; [done|]. split; [by repeat constructor|].
    split; [by observe|]. split; [done|]. split; [done | last_event].
Qed.

Lemma create_conflict_after_absent_listing_witness :
  let run auto_update :=
    deploy_agent (Examples.deploy_env Examples.race) "myagent" "us-east-1"
      "123456789012.dkr.ecr.us-east-1.amazonaws.com/myagent:7" auto_update in
  (Forall (λ c, is_update c = false) (calls (trace (run true)))
   ∧ AmbiguousConflict (run true))
  ∧ (Forall (λ c, is_update c = false) (calls (trace (run false)))
     ∧ DeploymentFailed (ClientError "ConflictException") (run false)).
Proof.
  assert (Forall (λ a, agentRuntimeName a ≠ "myagent")
            [Examples.runtime_named "other"]) as Habsent.
  { repeat constructor. discriminate. }
  pose proof (λ auto_update,
                create_conflict_after_absent_listing
                  (Examples.deploy_env Examples.race) "myagent" "us-east-1"
                  "123456789012.dkr.ecr.us-east-1.amazonaws.com/myagent:7"
                  auto_update Examples.role_file
                  {| agentRuntimes := Some [Examples.runtime_named "other"] |}
                  (ClientError "ConflictException")
                  eq_refl eq_refl Habsent eq_refl eq_refl) as H.
  split.
  - destruct (H true) as (_ & Hupdate & _ & Hend). split; [exact Hupdate | exact Hend].
  - destruct (H false) as (_ & Hupdate & _ & _ & Hend).
    split; [exact Hupdate | exact Hend].
Defined.

(** The claim C1 fails without [auto_update]: the conflict of the create
    call does not reach the caller of [deploy_agent], which sees
    [SystemExit(1)]. *)
Lemma conflict_ends_in_exit :
  let client := Examples.race in
  let uri := "123456789012.dkr.ecr.us-east-1.amazonaws.com/myagent:7" in
  let run := deploy_agent (Examples.deploy_env client) "myagent" "us-east-1"
               uri false in
  listed client "myagent" = None
  ∧ create_agent_runtime client "myagent" uri "PUBLIC" (strip Examples.role_file)
    = Fault (ClientError "ConflictException")
  ∧ result run ≠ Raised (ClientError "ConflictException")
  ∧ result run = Exited 1.
Proof. repeat split; try reflexivity. discriminate. Qed.

(** C2.  The listing shows a runtime of the target's name and
    [auto_update] is off: the run ends as [Conflict]; the listing is the
    only request sent (no create, no update) and no deployment record is
    written. *)
Theorem existing_without_auto_update
    env agent_name region container_uri role ls a :
  role_arn_txt env = Some role →
  list_agent_runtimes (boto3_client env region) = Reply ls →
  a ∈ default [] (agentRuntimes ls) →
  agentRuntimeName a = agent_name →
  let run := deploy_agent env agent_name region container_uri false in
  Conflict agent_name run
  ∧ calls (trace run) = [ListAgentRuntimes]
  ∧ written (trace run) = [].
Proof.
  intros Hrole Hls Hin Ha run.
  destruct (first_named_Some _ _ _ Hin Ha) as (b & Hb & _).
  assert (listed (boto3_client env region) agent_name = Some b) as Hlisted.
  { unfold listed. by rewrite Hls. }
  destruct (deploy_agent_listed env agent_name region container_uri false
              role b Hrole Hlisted) as (t1 & t2 & Ht1 & Ht2 & Hrun).
  subst run. rewrite Hrun. unfold Conflict, exits_after. simpl.
  split; [split; [done | last_event]|]. split; by observe.
Qed.

Lemma existing_without_auto_update_witness :
  let run :=
    deploy_agent (Examples.deploy_env Examples.present) "myagent" "us-east-1"
      "123456789012.dkr.ecr.us-east-1.amazonaws.com/myagent:7" false in
  Conflict "myagent" run
  ∧ calls (trace run) = [ListAgentRuntimes]
  ∧ written (trace run) = [].
Proof.
  apply (existing_without_auto_update
           (Examples.deploy_env Examples.present) "myagent" "us-east-1"
           "123456789012.dkr.ecr.us-east-1.amazonaws.com/myagent:7"
           Examples.role_file
           {| agentRuntimes :=
                Some [Examples.runtime_named "other";
                      Examples.runtime_named "myagent"] |}
           (Examples.runtime_named "myagent")); try reflexivity.
  simpl. right. left.
Defined.

(** C3, as the code has it.  After the listing, [deploy_agent] sends one
    create or update request and never a second one.  When that request
    fails, nothing is written and its error ends the run unchanged: a
    [ClientError] is caught by the final handler, so that the run ends as
    [DeploymentFailed], with that error reported and exit status 1, and
    is not raised; any other exception is raised to the caller as it is;
    the one exception is the naming conflict of a create under
    [auto_update], which ends as [AmbiguousConflict].  A failure of the
    listing is not an error of the run: it leaves a warning, and the run
    goes on along the create path. *)
Theorem request_failures env agent_name region container_uri auto_update role :
  role_arn_txt env = Some role →
  (is_Some (listed (boto3_client env region) agent_name) → auto_update = true) →
  let client := boto3_client env region in
  let run := deploy_agent env agent_name region container_uri auto_update in
  let sent :=
    match listed client agent_name with
    | Some agent =>
        (UpdateAgentRuntime (agentRuntimeId agent) container_uri "PUBLIC"
           (strip role),
         update_agent_runtime client (agentRuntimeId agent) container_uri
           "PUBLIC" (strip role))
    | None =>
        (CreateAgentRuntime agent_name container_uri "PUBLIC" (strip role),
         create_agent_runtime client agent_name container_uri "PUBLIC"
           (strip role))
    end in
  calls (trace run) = [ListAgentRuntimes; sent.1]
  ∧ (∀ e, list_agent_runtimes client = Fault e →
          is_create sent.1 = true
          ∧ Log WARNING "Error listing agents: {}" [AExn e] ∈ trace run)
  ∧ match sent.2 with
    | Reply response =>
        result run =
          Returned {| agent_arn := response_agentRuntimeArn response;
                      agent_id := response_agentRuntimeId response;
                      ecr_uri := container_uri |}
        ∧ written (trace run) =
            [("deployment_info.txt",
              deployment_info (response_agentRuntimeArn response)
                (response_agentRuntimeId response) container_uri)]
    | Fault e =>
        written (trace run) = []
        ∧ if bool_decide (error_code e = Some "ConflictException")
             && auto_update && is_create sent.1
          then AmbiguousConflict run
          else if is_ClientError e
               then DeploymentFailed e run
               else result run = Raised e
    end.
Proof.
  intros Hrole Hauto client run sent.
  destruct (listed client agent_name) as [agent|] eqn:Hlisted.
  - assert (auto_update = true) as ->.
    { apply Hauto. unfold client in Hlisted. rewrite Hlisted. by eexists. }
    destruct (deploy_agent_listed env agent_name region container_uri true
                role agent Hrole Hlisted) as (t1 & t2 & Ht1 & Ht2 & Hrun).
    subst run sent. rewrite Hrun. clear Hrun. simpl.
    split; [|split].
    + destruct (update_agent_runtime _ _ _ _ _) as [response|e];
        [|destruct e]; by observe.
    + intros e He. unfold listed in Hlisted. subst client.
      by rewrite He in Hlisted.
    + destruct (update_agent_runtime _ _ _ _ _) as [response|e];
        [split; [done | by observe]|].
      rewrite andb_false_r. unfold DeploymentFailed, exits_after.
      destruct e; simpl; (split; [by observe|]);
        first [ done | split; [done | last_event] ].
  - destruct (deploy_agent_unlisted env agent_name region container_uri
                auto_update role Hrole) as (t1 & t2 & Ht1 & Ht2 & Hin & Hrun).
    specialize (Hrun Hlisted).
    subst run sent. rewrite Hrun. clear Hrun. simpl.
    split; [|split].
    + destruct (create_agent_runtime _ _ _ _ _) as [response|e];
        [|destruct e as [code| | | |]; simpl;
          try destruct (bool_decide _ && auto_update)]; by observe.
    + intros e He. split; [done|].
      pose proof (Hin _ (find_existing_fault client agent_name e He)
                    (Log WARNING "Error listing agents: {}" [AExn e])
                    ltac:(by left)) as Hw.
      destruct (create_agent_runtime _ _ _ _ _) as [response|e'];
        [|destruct (is_ClientError e');
          [destruct (bool_decide _ && auto_update)|]];
        unfold trace; simpl;
        rewrite elem_of_app, elem_of_cons, elem_of_app; tauto.
    + destruct (create_agent_runtime _ _ _ _ _) as [response|e];
        [split; [done | by observe]|].
      rewrite andb_true_r.
      unfold AmbiguousConflict, DeploymentFailed, exits_after.
      destruct e as [code| | | |]; simpl;
        try destruct (bool_decide _ && auto_update); simpl;
        (split; [by observe|]);
        first [ done | split; [done | last_event] ].
Qed.

Lemma request_failures_witness :
  let run :=
    deploy_agent (Examples.deploy_env Examples.create_denied) "myagent"
      "us-east-1" "123456789012.dkr.ecr.us-east-1.amazonaws.com/myagent:7"
      true in
  calls (trace run) =
    [ListAgentRuntimes;
     CreateAgentRuntime "myagent"
       "123456789012.dkr.ecr.us-east-1.amazonaws.com/myagent:7" "PUBLIC"
       "arn:aws:iam::123456789012:role/agentcore-runtime"]
  ∧ written (trace run) = []
  ∧ DeploymentFailed (ClientError "AccessDeniedException") run.
Proof.
  pose proof (request_failures
                (Examples.deploy_env Examples.create_denied) "myagent"
                "us-east-1"
                "123456789012.dkr.ecr.us-east-1.amazonaws.com/myagent:7"
                true Examples.role_file eq_refl (λ _, eq_refl)) as H.
  simpl in H. destruct H as (Hcalls & _ & Hwritten & Hend).
  split; [exact Hcalls|]. split; [exact Hwritten | exact Hend].
Defined.

(** The claim C3 fails where the listing fails: the run neither raises
    nor reports that error, it creates the runtime and returns. *)
Lemma listing_failure_not_fatal :
  let client := Examples.listing_down in
  let run :=
    deploy_agent (Examples.deploy_env client) "myagent" "us-east-1"
      "123456789012.dkr.ecr.us-east-1.amazonaws.com/myagent:7" true in
  list_agent_runtimes client = Fault (OtherException "EndpointConnectionError")
  ∧ ¬ fatal (OtherException "EndpointConnectionError") run
  ∧ result run =
      Returned
        {| agent_arn := response_agentRuntimeArn (Examples.answer "myagent");
           agent_id := response_agentRuntimeId (Examples.answer "myagent");
           ecr_uri := "123456789012.dkr.ecr.us-east-1.amazonaws.com/myagent:7" |}
  ∧ Forall (λ c, c = ListAgentRuntimes ∨ is_create c = true) (calls (trace run)).
Proof.
  split; [reflexivity|]. split; [|split].
  - intros [H|[H _]]; vm_compute in H; discriminate.
  - reflexivity.
  - vm_compute. constructor; [by left|]. constructor; [by right|]. constructor.
Qed.

End ReconcilerProperties.

(** ** The retention pruner *)

Section PrunerProperties.
Import CleanupEcr.

(** *** The sort *)

Lemma key_lt_same_sort x y :
  dated x = dated y →
  key_lt (pushed_key x) (pushed_key y) = Reply (stamp x <? stamp y)%Z.
Proof.
  unfold dated, pushed_key, stamp.
  by destruct (imagePushedAt x), (imagePushedAt y).
Qed.

Lemma key_lt_other_sort x y :
  dated x ≠ dated y →
  key_lt (pushed_key x) (pushed_key y) = Fault TypeError.
Proof.
  unfold dated, pushed_key.
  by destruct (imagePushedAt x), (imagePushedAt y).
Qed.

Lemma insert_desc_same_sort b x l :
  dated x = b → Forall (λ y, dated y = b) l →
  ∃ r, insert_desc x l = Reply r ∧ r ≡ₚ x :: l
       ∧ (StronglySorted not_newer l → StronglySorted not_newer r).
Proof.
  intros Hx Hl. induction Hl as [|y l Hy Hl (r & IH & Hperm & Hsorted)]; simpl.
  - exists [x]. split; [done|]. split; [done|]. intros _. repeat constructor.
  - rewrite key_lt_same_sort by congruence.
    destruct (Z.ltb_spec (stamp x) (stamp y)) as [Hlt|Hge].
    + rewrite IH. exists (y :: r). split; [done|]. split.
      * rewrite Hperm. apply Permutation_swap.
      * intros Hs. apply StronglySorted_inv in Hs as [Hs Hall].
        constructor; [auto|]. rewrite Hperm. constructor; [|done].
        unfold not_newer. lia.
    + exists (x :: y :: l). split; [done|]. split; [done|].
      intros Hs. constructor; [done|]. constructor; [done|].
      apply StronglySorted_inv in Hs as [_ Hall].
      eapply Forall_impl; [exact Hall|]. unfold not_newer. simpl. lia.
Qed.

Lemma insert_desc_other_sort x y l :
  dated x ≠ dated y → insert_desc x (y :: l) = Fault TypeError.
Proof. intros H. simpl. by rewrite key_lt_other_sort. Qed.

(** Images of one sort are sorted: the result is a rearrangement of the
    list in which no image is followed by a newer one. *)
Lemma sorted_desc_same_sort b l :
  Forall (λ y, dated y = b) l →
  ∃ s, sorted_desc l = Reply s ∧ s ≡ₚ l ∧ StronglySorted not_newer s.
Proof.
  induction 1 as [|x l Hx Hl (s & IH & Hperm & Hsorted)]; simpl.
  - exists []. repeat split; constructor.
  - rewrite IH.
    destruct (insert_desc_same_sort b x s Hx) as (r & Hr & Hperm' & Hs).
    { by rewrite Hperm. }
    exists r. split; [done|]. split; [|auto]. by rewrite Hperm', Hperm.
Qed.

(** Any other list is not sorted at all: the first comparison of an
    [int] with a [datetime] raises [TypeError]. *)
Lemma sorted_desc_cases l :
  (∃ b, Forall (λ y, dated y = b) l) ∨ sorted_desc l = Fault TypeError.
Proof.
  induction l as [|x l [[b Hl]|IH]]; simpl.
  - left. by exists true.
  - destruct (decide (dated x = b)) as [Hx|Hx]; [left; exists b; by constructor|].
    destruct (sorted_desc_same_sort b l Hl) as (s & -> & Hperm & _).
    destruct s as [|y s].
    + apply Permutation_nil_l in Hperm as <-. left. exists (dated x). by constructor.
    + right. apply insert_desc_other_sort.
      rewrite <- Hperm in Hl. apply Forall_cons in Hl as [Hy _]. congruence.
  - right. by rewrite IH.
Qed.

Lemma sorted_desc_mixed l x y :
  x ∈ l → y ∈ l → dated x = true → dated y = false →
  sorted_desc l = Fault TypeError.
Proof.
  intros Hx Hy Dx Dy. destruct (sorted_desc_cases l) as [[b Hl]|H]; [|done].
  rewrite Forall_forall in Hl.
  pose proof (Hl x Hx). pose proof (Hl y Hy). congruence.
Qed.

(** *** [process_repository] *)

Lemma deleted_batch repo ids t :
  forallb is_log t = true →
  deleted (Call (DescribeImages repo) :: Call (BatchDeleteImage repo ids) :: t)
  = ids.
Proof.
  intros Ht. unfold deleted. simpl. rewrite (calls_logs t Ht). simpl.
  apply app_nil_r.
Qed.

(** Once the images are sorted, the run asks for the deletion of the
    digests found in [sorted_images[keep_count:]], in one request, and
    for nothing when there is none. *)
Lemma process_repository_sorted client repo keep_count images s :
  describe_images client repo = Reply images →
  sorted_desc images = Reply s →
  let run := process_repository client repo keep_count in
  result run = Returned tt
  ∧ deleted (trace run) = image_ids (slice_from s keep_count)
  ∧ calls (trace run) =
      DescribeImages repo ::
      match image_ids (slice_from s keep_count) with
      | [] => []
      | ids => [BatchDeleteImage repo ids]
      end.
Proof.
  intros Himages Hs. unfold process_repository. rewrite Himages. py_run.
  rewrite Hs. py_run.
  destruct (slice_from s keep_count) as [|x doomed]; [done|].
  destruct (image_ids (x :: doomed)) as [|d ids]; [done|].
  destruct (batch_delete_image client repo (d :: ids)) as [[]|e]; py_run;
    (split; [done|]); split; try done; by rewrite deleted_batch.
Qed.

(** When the sort raises, the error is logged and nothing else is done. *)
Lemma process_repository_unsorted client repo keep_count images e :
  describe_images client repo = Reply images →
  sorted_desc images = Fault e →
  process_repository client repo keep_count =
    ([Call (DescribeImages repo);
      Log ERROR "Error processing repository {}: {}" [AStr repo; AExn e]],
     Returned tt).
Proof.
  intros Himages Hs. unfold process_repository. rewrite Himages. py_run.
  rewrite Hs. reflexivity.
Qed.

Lemma slice_from_nonneg {A} (l : list A) k :
  (0 ≤ k)%Z → slice_from l k = drop (Z.to_nat k) l.
Proof.
  intros Hk. unfold slice_from.
  destruct (Z.ltb_spec k 0) as [|_]; [lia|].
  destruct (Z.min_spec k (Z.of_nat (length l))) as [[_ ->]|[Hle ->]]; [done|].
  rewrite Nat2Z.id, !drop_ge; [done | lia | lia].
Qed.

Lemma slice_from_neg {A} (l : list A) k :
  (k < 0)%Z →
  slice_from l k = drop (length l - Z.to_nat (- k)) l.
Proof.
  intros Hk. unfold slice_from.
  destruct (Z.ltb_spec k 0) as [_|]; [|lia].
  f_equal. lia.
Qed.


Lemma sorted_split (s : list image_detail) n x y :
  StronglySorted not_newer s → x ∈ take n s → y ∈ drop n s → not_newer x y.
Proof.
  intros Hs Hx Hy. rewrite <- (take_drop n s) in Hs.
  by eapply StronglySorted_app_1_elem_of.
Qed.




(** C5 at the scenario of the specification: twelve images, three of
    them undated, [keep_count = 9].  Sorting compares the [int] key of an
    undated image with the [datetime] key of a dated one and raises
    [TypeError]; the error is logged and no image is deleted. *)
Theorem twelve_images_three_undated :
  let images := Examples.twelve_images in
  let run := process_repository (Examples.registry images) "agentcore" 9 in
  length images = 12
  ∧ length (filter (λ x, dated x = false) images) = 3
  ∧ sorted_desc images = Fault TypeError
  ∧ run = ([Call (DescribeImages "agentcore");
            Log ERROR "Error processing repository {}: {}"
              [AStr "agentcore"; AExn TypeError]],
           Returned tt)
  ∧ deleted (trace run) = [].
Proof. repeat split; reflexivity. Qed.

(** The same for every repository that holds a dated and an undated
    image, whatever [keep_count]. *)
Lemma undated_among_dated client repo keep_count images x y :
  describe_images client repo = Reply images →
  x ∈ images → y ∈ images → dated x = true → dated y = false →
  process_repository client repo keep_count =
    ([Call (DescribeImages repo);
      Log ERROR "Error processing repository {}: {}" [AStr repo; AExn TypeError]],
     Returned tt).
Proof.
  intros Himages Hx Hy Dx Dy.
  eapply process_repository_unsorted; [done|].
  exact (sorted_desc_mixed images x y Hx Hy Dx Dy).
Qed.

(** C6, as the code has it.  A negative [keep_count] is the start of the
    slice counted from the end: the deletion set is made of the last
    [min(-keep_count, len)] images of the descending order, the oldest
    ones, and the images before them are kept.  Only when
    [-keep_count ≥ len] is every image in the deletion set. *)
Theorem negative_keep_count client repo keep_count images b :
  (keep_count < 0)%Z →
  images ≠ [] →
  describe_images client repo = Reply images →
  Forall (λ x, dated x = b) images →
  let run := process_repository client repo keep_count in
  let m := Z.to_nat (- keep_count) `min` length images in
  ∃ s, sorted_desc images = Reply s ∧ s ≡ₚ images
    ∧ let kept := take (length images - m) s in
      let doomed := drop (length images - m) s in
      length doomed = m
      ∧ length kept = length images - m
      ∧ (∀ x y, x ∈ kept → y ∈ doomed → not_newer x y)
      ∧ deleted (trace run) = image_ids doomed
      ∧ (kept = [] ↔ (Z.of_nat (length images) ≤ - keep_count)%Z).
Proof.
  intros Hk Hne Himages Hsort run m.
  destruct (sorted_desc_same_sort b images Hsort) as (s & Hs & Hperm & Hsorted).
  exists s. split; [done|]. split; [done|].
  destruct (process_repository_sorted client repo keep_count images s
              Himages Hs) as (_ & Hdel & _).
  rewrite slice_from_neg in Hdel by done.
  assert (length s = length images) as Hlen by by rewrite Hperm.
  assert (length images - m = length s - Z.to_nat (- keep_count)) as Hm
    by (subst m; lia).
  simpl. rewrite Hm. split; [|split; [|split; [|split]]].
  - rewrite length_drop. subst m. lia.
  - rewrite length_take. lia.
  - intros x y. by apply sorted_split.
  - done.
  - split.
    + intros Hnil. apply (f_equal length) in Hnil.
      rewrite length_take in Hnil. simpl in Hnil.
      assert (length images ≠ 0) by by destruct images. lia.
    + intros Hall. apply nil_length_inv. rewrite length_take. lia.
Qed.

Lemma negative_keep_count_witness :
  let run := process_repository (Examples.registry Examples.three_images)
               "agentcore" (-1) in
  ∃ s, sorted_desc Examples.three_images = Reply s
    ∧ deleted (trace run) = image_ids (drop 2 s).
Proof.
  destruct (negative_keep_count (Examples.registry Examples.three_images)
              "agentcore" (-1) Examples.three_images true)
    as (s & Hs & _ & _ & _ & _ & Hdel & _).
  - lia.
  - discriminate.
  - reflexivity.
  - repeat constructor.
  - exists s. split; [exact Hs | exact Hdel].
Defined.

(** The claim C6 fails for [keep_count = -1] on three images: the oldest
    image alone is deleted, the two newest are kept. *)
Lemma minus_one_deletes_the_oldest_only :
  let run := process_repository (Examples.registry Examples.three_images)
               "agentcore" (-1) in
  Examples.three_images ≠ []
  ∧ deleted (trace run) = ["sha256:a"]
  ∧ ¬ (deleted (trace run) ≡ₚ image_ids Examples.three_images).
Proof.
  split; [discriminate|]. split; [reflexivity|].
  intros H. apply Permutation_length in H. vm_compute in H. discriminate.
Qed.

(** C7.  When [describe_repositories] fails with
    [RepositoryNotFoundException], [cleanup_ecr_images] logs that the
    repository is skipped and returns: the lookup is the only request
    sent, so nothing is listed, deleted or reported as kept, and no error
    reaches the caller. *)
Theorem repository_absent boto3_client region keep_count repository_name e :
  describe_repositories (boto3_client region) [repository_name] = Fault e →
  error_code e = Some "RepositoryNotFoundException" →
  let run := cleanup_ecr_images boto3_client region keep_count repository_name in
  run = ([Call (DescribeRepositories [repository_name]);
          Log INFO "Repository {} not found, skipping cleanup"
            [AStr repository_name]],
         Returned tt)
  ∧ deleted (trace run) = []
  ∧ errors (trace run) = [].
Proof.
  intros Hlookup Hcode run.
  assert (run = ([Call (DescribeRepositories [repository_name]);
                  Log INFO "Repository {} not found, skipping cleanup"
                    [AStr repository_name]], Returned tt)) as ->.
  { subst run. unfold cleanup_ecr_images. rewrite Hlookup. py_run.
    unfold is_RepositoryNotFoundException. rewrite Hcode. reflexivity. }
  done.
Qed.

Lemma repository_absent_witness :
  cleanup_ecr_images (λ _, Examples.registry Examples.three_images)
    "us-east-1" 9 "retired" =
  ([Call (DescribeRepositories ["retired"]);
    Log INFO "Repository {} not found, skipping cleanup" [AStr "retired"]],
   Returned tt).
Proof.
  apply (repository_absent (λ _, Examples.registry Examples.three_images)
           "us-east-1" 9 "retired"
           (ClientError "RepositoryNotFoundException")); reflexivity.
Defined.

End PrunerProperties.

(** ** The validation harness *)

Section HarnessProperties.
Import AgentCore TestAgent.

Variable loads : string → reply json.

Lemma calls_info t : forallb is_info t = true → calls t = [].
Proof.
  induction t as [|[c|[] f a|p c] t IH]; simpl; intros H; try discriminate; auto.
Qed.

Lemma errors_info t : forallb is_info t = true → errors t = [].
Proof.
  induction t as [|[c|[] f a|p c] t IH]; simpl; intros H; try discriminate; auto.
Qed.

Lemma invocations_app t1 t2 :
  invocations (t1 ++ t2) = invocations t1 ++ invocations t2.
Proof. unfold invocations. by rewrite calls_app, omap_app. Qed.

Lemma invocations_info t : forallb is_info t = true → invocations t = [].
Proof. intros H. unfold invocations. by rewrite calls_info. Qed.

(** *** One case *)

Lemma show_text_spec response_text :
  ∃ t, forallb is_info t = true ∧
    show_text loads response_text =
      (t, match loads response_text with
          | Reply _ => Returned tt
          | Fault e => if is_JSONDecodeError e then Returned tt else Raised e
          end).
Proof.
  unfold show_text. destruct (loads response_text) as [j|e]; py_run.
  - destruct j as [|b|r|s|l|d]; py_run;
      try (eexists; refine (conj _ eq_refl); reflexivity).
    destruct (d !! "content"), (d !! "message"), (d !! "text");
      eexists; refine (conj _ eq_refl); reflexivity.
  - destruct e; py_run; eexists; refine (conj _ eq_refl); reflexivity.
Qed.

(** Reading a response ends well exactly when the response is legible;
    otherwise it raises.  It sends nothing and logs no error. *)
Lemma show_response_spec response :
  ∃ t o, show_response loads response = (t, o) ∧ forallb is_info t = true ∧
    if legible loads response then o = Returned tt else ∃ e, o = Raised e.
Proof.
  unfold show_response, legible.
  destruct (response_body response) as [[[raw|e]]|]; py_run.
  - destruct (decode_utf8 raw) as [text|e]; py_run.
    + destruct (show_text_spec text) as (t & Ht & ->).
      exists t. eexists. split; [done|]. split; [done|].
      destruct (loads text) as [j|e]; [done|].
      destruct (is_JSONDecodeError e); [done | by eexists].
    + exists []. eexists. split; [done|]. split; [done | by eexists].
  - exists []. eexists. split; [done|]. split; [done | by eexists].
  - destruct (payload response) as [[b|s]|]; py_run.
    + destruct (decode_utf8 b) as [text|e]; py_run.
      * by eexists _, _.
      * exists []. eexists. split; [done|]. split; [done | by eexists].
    + by eexists _, _.
    + by eexists _, _.
Qed.

Lemma invoke_case_spec client agent_arn prompt :
  ∃ t o, invoke_case loads client agent_arn prompt =
           (Call (InvokeAgentRuntime agent_arn "DEFAULT"
                    (dumps_test_case prompt)) :: t, o)
    ∧ forallb is_info t = true
    ∧ match invoke_agent_runtime client agent_arn "DEFAULT"
              (dumps_test_case prompt) with
      | Reply response =>
          if legible loads response then o = Returned tt
          else ∃ e, o = Raised e
      | Fault e => o = Raised e
      end.
Proof.
  unfold invoke_case.
  destruct (invoke_agent_runtime _ _ _ _) as [response|e]; py_run.
  - destruct (show_response_spec response) as (t & o & -> & Ht & Ho).
    by exists t, o.
  - by exists [], (Raised e).
Qed.

Lemma invoke_case_ends client agent_arn prompt :
  ∃ t o, invoke_case loads client agent_arn prompt =
           (Call (InvokeAgentRuntime agent_arn "DEFAULT"
                    (dumps_test_case prompt)) :: t, o)
    ∧ forallb is_info t = true
    ∧ (o = Returned tt ∨ ∃ e, o = Raised e).
Proof.
  destruct (invoke_case_spec client agent_arn prompt) as (t & o & H & Ht & Ho).
  exists t, o. split; [done|]. split; [done|].
  destruct (invoke_agent_runtime _ _ _ _) as [response|e]; [|by eauto].
  destruct (legible loads response); by eauto.
Qed.

(** The outcome of a case is decided by the transport and the decoding
    of its own response alone. *)
Lemma case_outcome_legible client agent_arn prompt :
  case_outcome loads client agent_arn prompt =
  match invoke_agent_runtime client agent_arn "DEFAULT"
          (dumps_test_case prompt) with
  | Reply response => legible loads response
  | Fault _ => false
  end.
Proof.
  unfold case_outcome.
  destruct (invoke_case_spec client agent_arn prompt) as (t & o & -> & _ & Ho).
  unfold result. simpl.
  destruct (invoke_agent_runtime _ _ _ _) as [response|e]; [|by subst].
  destruct (legible loads response); [by subst | by destruct Ho as [e ->]].
Qed.

(** One turn of the loop: the case is invoked once; when it raises, one
    [ERROR] line is logged and [all_passed] becomes false; in no case
    does the turn itself raise. *)
Lemma run_case_spec client agent_arn total i prompt all_passed :
  ∃ t, run_case loads client agent_arn total i prompt all_passed =
         (t, Returned (all_passed && case_outcome loads client agent_arn prompt))
    ∧ invocations t = [(agent_arn, "DEFAULT", dumps_test_case prompt)]
    ∧ errors t = option_list (failure_line loads client agent_arn prompt).
Proof.
  unfold run_case, case_outcome, failure_line.
  destruct (invoke_case_ends client agent_arn prompt)
    as (t & o & -> & Ht & [->|[e ->]]); py_run.
  - eexists. split; [by rewrite andb_true_r|].
    rewrite !app_nil_r. unfold invocations. simpl.
    by rewrite (calls_info t Ht), (errors_info t Ht).
  - eexists. split; [by rewrite andb_false_r|].
    unfold invocations. simpl. rewrite calls_app, errors_app.
    by rewrite (calls_info t Ht), (errors_info t Ht).
Qed.

(** *** The loop *)

Lemma run_cases_spec client agent_arn total cases :
  ∀ i all_passed,
  ∃ t, run_cases loads client agent_arn total i cases all_passed =
         (t, Returned
               (all_passed && forallb (case_outcome loads client agent_arn) cases))
    ∧ invocations t = (λ p, (agent_arn, "DEFAULT", dumps_test_case p)) <$> cases
    ∧ errors t = omap (failure_line loads client agent_arn) cases.
Proof.
  induction cases as [|prompt cases IH]; intros i all_passed; simpl.
  - exists []. by rewrite andb_true_r.
  - destruct (run_case_spec client agent_arn total i prompt all_passed)
      as (t1 & H1 & Hi1 & He1).
    destruct (IH (S i) (all_passed && case_outcome loads client agent_arn prompt))
      as (t2 & H2 & Hi2 & He2).
    exists (t1 ++ t2). rewrite (bind_returned _ _ _ _ H1), H2. simpl.
    split; [by rewrite andb_assoc|].
    rewrite invocations_app, errors_app, Hi1, Hi2, He1, He2.
    split; [done|]. by destruct (failure_line _ _ _ _).
Qed.

Lemma run_battery_spec client agent_name agent_arn region cases :
  let verdict := forallb (case_outcome loads client agent_arn) cases in
  ∃ t, run_battery loads client agent_name agent_arn region cases =
         (t, Returned verdict)
    ∧ invocations t = (λ p, (agent_arn, "DEFAULT", dumps_test_case p)) <$> cases
    ∧ errors t =
        omap (failure_line loads client agent_arn) cases ++
        if verdict then []
        else [("Some tests failed! Please check the agent configuration.", [])].
Proof.
  intros verdict. unfold run_battery.
  destruct (run_cases_spec client agent_arn (length cases) cases 1 true)
    as (t & H & Hi & He).
  rewrite andb_true_l in H. fold verdict in H.
  py_run. rewrite H. py_run.
  destruct verdict; py_run; eexists; (split; [reflexivity|]);
    unfold invocations in *; simpl; rewrite calls_app, errors_app; simpl;
    rewrite ?omap_app, ?app_nil_r; simpl; rewrite ?app_nil_r; by rewrite ?Hi, ?He.
Qed.

(** *** [test_agent] *)

Lemma find_runtime_None agent_name runtimes :
  Forall (λ r, agentRuntimeName r ≠ agent_name) runtimes →
  find_runtime agent_name runtimes = None.
Proof.
  induction 1 as [|r runtimes Hr _ IH]; simpl; [done|].
  apply String.eqb_neq in Hr. by rewrite Hr.
Qed.

(** Without a [READY] runtime of that name, [test_agent] returns
    [False] before any invocation. *)
Lemma test_agent_not_ready env agent_name region :
  ready_arn (control env region) agent_name = None →
  ∃ t, test_agent loads env agent_name region = (t, Returned false)
    ∧ invocations t = [].
Proof.
  unfold ready_arn, test_agent, resolve_agent, check_status.
  destruct (list_agent_runtimes (control env region)) as [ls|e]; py_run;
    [|by eexists].
  destruct (find_runtime agent_name (default [] (agentRuntimes ls)))
    as [[[|c s] agent_id]|]; py_run; try by eexists.
  destruct (get_agent_runtime (control env region) agent_id) as [status|e];
    py_run; [|by eexists].
  destruct (String.eqb status "READY"); [done|]. py_run. by eexists.
Qed.

(** With one, it runs the battery. *)
Lemma test_agent_ready env agent_name region agent_arn :
  ready_arn (control env region) agent_name = Some agent_arn →
  ∃ t, test_agent loads env agent_name region =
         (t ++ trace (run_battery loads (runtime env region) agent_name
                        agent_arn region test_cases),
          result (run_battery loads (runtime env region) agent_name
                    agent_arn region test_cases))
    ∧ invocations t = [] ∧ errors t = [].
Proof.
  unfold ready_arn, test_agent, resolve_agent, check_status.
  destruct (list_agent_runtimes (control env region)) as [ls|e]; py_run;
    [|done].
  destruct (find_runtime agent_name (default [] (agentRuntimes ls)))
    as [[[|c s] agent_id]|]; py_run; try done.
  destruct (get_agent_runtime (control env region) agent_id) as [status|e];
    py_run; [|done].
  destruct (String.eqb status "READY"); [|done]. intros [= <-]. py_run.
  destruct (run_battery _ _ _ _ _ _) as [t o].
  by exists [Call ListAgentRuntimes;
             Log INFO "Found agent: {}" [AStr (String c s)];
             Call (GetAgentRuntime agent_id);
             Log INFO "Agent runtime status: {}" [AStr status]].
Qed.

(** C8.  When no runtime of the listing bears the name, or when the
    status of the runtime found is not [READY], [test_agent] returns
    [False]: it does not raise, and it invokes nothing. *)
Theorem not_ready_no_invocation env agent_name region ls :
  list_agent_runtimes (control env region) = Reply ls →
  Forall (λ r, agentRuntimeName r ≠ agent_name) (default [] (agentRuntimes ls))
  ∨ (∃ agent_arn agent_id status,
       find_runtime agent_name (default [] (agentRuntimes ls))
         = Some (agent_arn, agent_id)
       ∧ get_agent_runtime (control env region) agent_id = Reply status
       ∧ status ≠ "READY") →
  let run := test_agent loads env agent_name region in
  result run = Returned false ∧ invocations (trace run) = [].
Proof.
  intros Hls H run.
  destruct (test_agent_not_ready env agent_name region) as (t & Hrun & Hi).
  - unfold ready_arn. rewrite Hls.
    destruct H as [Habs|(agent_arn & agent_id & status & -> & -> & Hstatus)].
    + by rewrite find_runtime_None.
    + apply String.eqb_neq in Hstatus. rewrite Hstatus. by destruct agent_arn.
  - subst run. by rewrite Hrun.
Qed.

(** C9.  On a [READY] runtime every case of the battery is invoked, once
    and in order, whatever happens to the others; a case that raises
    leaves its own [ERROR] line and nothing more; the value returned is
    the conjunction of the outcomes of the cases.  So a single case whose
    invocation fails makes the result [False], while all ten cases are
    run. *)
Theorem fault_isolation env agent_name region agent_arn :
  ready_arn (control env region) agent_name = Some agent_arn →
  let client := runtime env region in
  let run := test_agent loads env agent_name region in
  let verdict := forallb (case_outcome loads client agent_arn) test_cases in
  length test_cases = 10
  ∧ invocations (trace run) =
      (λ p, (agent_arn, "DEFAULT", dumps_test_case p)) <$> test_cases
  ∧ result run = Returned verdict
  ∧ errors (trace run) =
      omap (failure_line loads client agent_arn) test_cases ++
      (if verdict then []
       else [("Some tests failed! Please check the agent configuration.", [])])
  ∧ (∀ p e, p ∈ test_cases →
       invoke_agent_runtime client agent_arn "DEFAULT" (dumps_test_case p)
         = Fault e →
       result run = Returned false
       ∧ ("Test failed: {}", [AExn e]) ∈ errors (trace run)).
Proof.
  intros Hready client run verdict.
  destruct (test_agent_ready env agent_name region agent_arn Hready)
    as (t0 & Hrun & Hi0 & He0).
  destruct (run_battery_spec client agent_name agent_arn region test_cases)
    as (t & Hbat & Hi & He).
  fold client in Hrun. rewrite Hbat in Hrun. unfold trace, result in Hrun.
  cbn [fst snd] in Hrun. fold verdict in Hbat, He, Hrun.
  assert (errors (trace run) =
          omap (failure_line loads client agent_arn) test_cases ++
          (if verdict then []
           else [("Some tests failed! Please check the agent configuration.", [])]))
    as Herrors.
  { subst run. rewrite Hrun. unfold trace. simpl.
    by rewrite errors_app, He0, He. }
  split; [done|]. split; [|split; [|split; [done|]]].
  - subst run. rewrite Hrun. unfold trace. simpl.
    by rewrite invocations_app, Hi0, Hi.
  - subst run. by rewrite Hrun.
  - intros p e Hp Hfault.
    assert (case_outcome loads client agent_arn p = false) as Hout.
    { by rewrite case_outcome_legible, Hfault. }
    assert (failure_line loads client agent_arn p
            = Some ("Test failed: {}", [AExn e])) as Hline.
    { unfold failure_line.
      destruct (invoke_case_spec client agent_arn p)
        as (t' & o & -> & _ & Ho).
      rewrite Hfault in Ho. by subst o. }
    split.
    + subst run. rewrite Hrun. unfold result. simpl. f_equal.
      apply not_true_is_false. intros Hall. subst verdict.
      rewrite forallb_forall in Hall.
      apply list_elem_of_In in Hp. specialize (Hall p Hp). congruence.
    + rewrite Herrors. apply elem_of_app. left.
      apply list_elem_of_omap. by exists p.
Qed.

(** C10.  On a [READY] runtime a case passes as soon as its response is
    legible, whatever it says; so [test_agent] returns [True] exactly
    when no case of the battery raises, and [False] otherwise. *)
Theorem passing_is_not_raising env agent_name region agent_arn :
  ready_arn (control env region) agent_name = Some agent_arn →
  let client := runtime env region in
  let run := test_agent loads env agent_name region in
  (∀ p response,
     invoke_agent_runtime client agent_arn "DEFAULT" (dumps_test_case p)
       = Reply response →
     legible loads response = true →
     case_outcome loads client agent_arn p = true)
  ∧ (result run = Returned true ↔
     ∀ p, p ∈ test_cases →
          result (invoke_case loads client agent_arn p) = Returned tt)
  ∧ (result run ≠ Returned true → result run = Returned false).
Proof.
  intros Hready client run.
  destruct (test_agent_ready env agent_name region agent_arn Hready)
    as (t0 & Hrun & _).
  destruct (run_battery_spec client agent_name agent_arn region test_cases)
    as (t & Hbat & _).
  fold client in Hrun. rewrite Hbat in Hrun. unfold trace, result in Hrun.
  cbn [fst snd] in Hrun.
  assert (∀ p, case_outcome loads client agent_arn p = true ↔
               result (invoke_case loads client agent_arn p) = Returned tt)
    as Hcase.
  { intros p. unfold case_outcome.
    destruct (result (invoke_case loads client agent_arn p)) as [[]| |];
      split; done. }
  split; [|split].
  - intros p response Hreply Hlegible.
    by rewrite case_outcome_legible, Hreply.
  - subst run. rewrite Hrun. unfold result at 1. cbn [snd].
    assert (∀ b : bool, @Returned bool b = Returned true ↔ b = true) as Hb.
    { intros b. split; [by intros [= ->] | by intros ->]. }
    rewrite Hb, forallb_forall. split; intros Hall p Hp.
    + apply Hcase, Hall. by apply list_elem_of_In.
    + apply Hcase, Hall. by apply list_elem_of_In.
  - subst run. rewrite Hrun. unfold result. cbn [snd].
    by destruct (forallb _ _).
Qed.

End HarnessProperties.

(** *** The harness on the examples *)

Lemma not_ready_no_invocation_witness :
  let run :=
    TestAgent.test_agent Examples.loads
      (Examples.test_env Examples.creating Examples.parrot)
      "myagent" "us-east-1" in
  result run = Returned false ∧ invocations (trace run) = [].
Proof.
  apply (not_ready_no_invocation Examples.loads
           (Examples.test_env Examples.creating Examples.parrot)
           "myagent" "us-east-1"
           {| AgentCore.agentRuntimes :=
                Some [Examples.runtime_named "other";
                      Examples.runtime_named "myagent"] |}).
  - reflexivity.
  - right.
    exists (AgentCore.agentRuntimeArn (Examples.runtime_named "myagent")),
           (AgentCore.agentRuntimeId (Examples.runtime_named "myagent")),
           "CREATING".
    split; [reflexivity|]. split; [reflexivity | discriminate].
Defined.

(** One broken connection among the ten prompts: the result is [False],
    the ten prompts have all been sent, and the only failed case is the
    third. *)
Lemma fault_isolation_witness :
  let run :=
    TestAgent.test_agent Examples.loads
      (Examples.test_env Examples.present Examples.flaky)
      "myagent" "us-east-1" in
  result run = Returned false
  ∧ length (invocations (trace run)) = 10
  ∧ errors (trace run) =
      [("Test failed: {}", [AExn (OtherException "ReadTimeoutError")]);
       ("Some tests failed! Please check the agent configuration.", [])].
Proof.
  destruct (fault_isolation Examples.loads
              (Examples.test_env Examples.present Examples.flaky)
              "myagent" "us-east-1"
              (AgentCore.agentRuntimeArn (Examples.runtime_named "myagent"))
              eq_refl)
    as (_ & Hsent & Hresult & Herrors & _).
  split; [exact Hresult|]. split; [|exact Herrors].
  apply (f_equal length) in Hsent. exact Hsent.
Defined.

(** An agent that answers 5 to every prompt, [What is 2 + 2?] included,
    passes the whole battery. *)
Lemma passing_is_not_raising_witness :
  let run :=
    TestAgent.test_agent Examples.loads
      (Examples.test_env Examples.present Examples.parrot)
      "myagent" "us-east-1" in
  result run = Returned true.
Proof.
  destruct (passing_is_not_raising Examples.loads
              (Examples.test_env Examples.present Examples.parrot)
              "myagent" "us-east-1"
              (AgentCore.agentRuntimeArn (Examples.runtime_named "myagent"))
              eq_refl)
    as (_ & [_ Hall] & _).
  apply Hall. intros p _. reflexivity.
Defined.

(** * Further properties *)

(** ** [deploy_agent], whatever it meets *)

Section ReconcilerAtLarge.
Import AgentCore DeployAgent.

Lemma deploy_agent_without_role env agent_name region container_uri auto_update :
  role_arn_txt env = None →
  deploy_agent env agent_name region container_uri auto_update =
    ([Log ERROR "Error: role_arn.txt not found" [];
      Log ERROR
        "Please run create_iam_role.py first to create the execution role" []],
     Exited 1).
Proof. intros H. unfold deploy_agent, read_role_arn. rewrite H. reflexivity. Qed.

(** X1.  Without [role_arn.txt] the run stops with exit status 1 before
    anything is asked of the control plane: no request is sent and no
    file is written. *)
Theorem missing_role_file env agent_name region container_uri auto_update :
  role_arn_txt env = None →
  let run := deploy_agent env agent_name region container_uri auto_update in
  result run = Exited 1
  ∧ calls (trace run) = []
  ∧ written (trace run) = []
  ∧ errors (trace run) =
      [("Error: role_arn.txt not found", []);
       ("Please run create_iam_role.py first to create the execution role", [])].
Proof.
  intros H run. subst run.
  by rewrite (deploy_agent_without_role _ _ _ _ _ H).
Qed.

Lemma missing_role_file_witness :
  let run :=
    deploy_agent (MoreExamples.no_role_file Examples.present) "myagent"
      "us-east-1" "123456789012.dkr.ecr.us-east-1.amazonaws.com/myagent:7" true in
  result run = Exited 1 ∧ calls (trace run) = [].
Proof.
  destruct (missing_role_file (MoreExamples.no_role_file Examples.present)
              "myagent" "us-east-1"
              "123456789012.dkr.ecr.us-east-1.amazonaws.com/myagent:7" true
              eq_refl) as (Hend & Hcalls & _).
  split; [exact Hend | exact Hcalls].
Defined.

Ltac shape_tail :=
  eexists; do 2 (split; [done|]); refine (conj _ eq_refl); reflexivity.

(** The shape of every run that has read the role: log lines, the
    listing, log lines, then what [planned] says. *)
Lemma deploy_agent_shape env agent_name region container_uri auto_update role :
  role_arn_txt env = Some role →
  ∃ t1 t2 t3,
    forallb is_log t1 = true ∧ forallb is_log t2 = true
    ∧ forallb is_log t3 = true ∧
    deploy_agent env agent_name region container_uri auto_update =
    match planned (boto3_client env region) agent_name container_uri
            (strip role) auto_update with
    | None => (t1 ++ Call ListAgentRuntimes :: t2 ++ t3, Exited 1)
    | Some (c, Reply response) =>
        (t1 ++ Call ListAgentRuntimes :: t2 ++
         Call c ::
         WriteFile "deployment_info.txt"
           (deployment_info (response_agentRuntimeArn response)
              (response_agentRuntimeId response) container_uri) :: t3,
         Returned {| agent_arn := response_agentRuntimeArn response;
                     agent_id := response_agentRuntimeId response;
                     ecr_uri := container_uri |})
    | Some (c, Fault e) =>
        (t1 ++ Call ListAgentRuntimes :: t2 ++ Call c :: t3,
         if is_ClientError e then Exited 1 else Raised e)
    end.
Proof.
  intros Hrole. unfold planned.
  destruct (listed (boto3_client env region) agent_name) as [agent|] eqn:Hlisted.
  - destruct (deploy_agent_listed env agent_name region container_uri
                auto_update role agent Hrole Hlisted)
      as (t1 & t2 & Ht1 & Ht2 & ->).
    exists t1, t2. destruct auto_update; simpl.
    + destruct (update_agent_runtime _ _ _ _ _) as [response|e].
      * shape_tail.
      * destruct e; simpl; shape_tail.
    + shape_tail.
  - destruct (deploy_agent_unlisted env agent_name region container_uri
                auto_update role Hrole)
      as (t1 & t2 & Ht1 & Ht2 & _ & Hrun).
    rewrite (Hrun Hlisted). clear Hrun.
    exists t1, t2. simpl.
    destruct (create_agent_runtime _ _ _ _ _) as [response|e].
    + shape_tail.
    + destruct e as [code| | | |]; simpl; try shape_tail.
      destruct (bool_decide _ && auto_update); shape_tail.
Qed.




(** [deploy_agent] of the script is [deploy_agent] over the role text and
    the client, once both are there. *)
Lemma deploy_agent_script_cases env agent_name region container_uri auto_update :
  DeployAgentScript.deploy_agent env agent_name region container_uri
    auto_update =
  match DeployAgentScript.role_arn_txt env with
  | Fault e =>
      if DeployAgentScript.is_FileNotFoundError e
      then ([Log ERROR "Error: role_arn.txt not found" [];
             Log ERROR
               "Please run create_iam_role.py first to create the execution role"
               []],
            Exited 1)
      else ([], Raised e)
  | Reply content =>
      match DeployAgentScript.boto3_client env region with
      | Fault e =>
          ([Log INFO "Deploying agent {}" [AStr agent_name];
            Log INFO "Platform: ARM64 (required by Bedrock AgentCore)" [];
            Log INFO "Using execution role: {}" [AStr (strip content)]],
           Raised e)
      | Reply client =>
          DeployAgent.deploy_agent
            {| DeployAgent.role_arn_txt := Some content;
               DeployAgent.boto3_client := λ _, client |}
            agent_name region container_uri auto_update
      end
  end.
Proof.
  unfold DeployAgentScript.deploy_agent, DeployAgent.deploy_agent,
    DeployAgent.read_role_arn.
  destruct (DeployAgentScript.role_arn_txt env) as [content|e]; py_run.
  - destruct (DeployAgentScript.boto3_client env region) as [client|e];
      py_run; [|done].
    by destruct (DeployAgent.reconcile _ _ _ _ _) as [t o].
  - by destruct (DeployAgentScript.is_FileNotFoundError e).
Qed.

(** X4.  What escapes [deploy_agent].  An exception raised while
    [role_arn.txt] is read reaches the caller unless it is
    [FileNotFoundError], which gives exit status 1, and so does an
    exception raised while the client is made; in both cases no request
    has been sent.  Past these two steps the run is the reconciliation
    over that role text and that client: no [ClientError] reaches the
    caller, and an exit has status 1. *)
Theorem no_client_error_escapes env agent_name region container_uri auto_update :
  let run :=
    DeployAgentScript.deploy_agent env agent_name region container_uri
      auto_update in
  match DeployAgentScript.role_arn_txt env with
  | Fault e =>
      result run =
        (if DeployAgentScript.is_FileNotFoundError e then Exited 1
         else Raised e)
      ∧ calls (trace run) = []
  | Reply content =>
      match DeployAgentScript.boto3_client env region with
      | Fault e => result run = Raised e ∧ calls (trace run) = []
      | Reply client =>
          run =
            DeployAgent.deploy_agent
              {| DeployAgent.role_arn_txt := Some content;
                 DeployAgent.boto3_client := λ _, client |}
              agent_name region container_uri auto_update
          ∧ (∀ code, result run ≠ Raised (ClientError code))
          ∧ (∀ status, result run = Exited status → status = 1%Z)
      end
  end.
Proof.
  intros run. subst run. rewrite deploy_agent_script_cases.
  destruct (DeployAgentScript.role_arn_txt env) as [content|e].
  - destruct (DeployAgentScript.boto3_client env region) as [client|e];
      [|done].
    split; [done|].
    destruct (deploy_agent_shape
                {| DeployAgent.role_arn_txt := Some content;
                   DeployAgent.boto3_client := λ _, client |}
                agent_name region container_uri auto_update content eq_refl)
      as (t1 & t2 & t3 & _ & _ & _ & ->).
    destruct (planned _ _ _ _ _) as [[c [response|e]]|]; simpl;
      [by split | | by split; [|intros status [= <-]]].
    destruct e; simpl; (split; [done|]); by intros status [= <-].
  - by destruct (DeployAgentScript.is_FileNotFoundError e).
Qed.

(** *** The deployment record *)

Lemma append_newline_inj s s' r r' :
  one_line s = true → one_line s' = true →
  s +:+ newline +:+ r = s' +:+ newline +:+ r' → s = s' ∧ r = r'.
Proof.
  revert s'. induction s as [|c s IH]; intros [|c' s'] Hs Hs' H; simpl in *.
  - injection H as H. by subst.
  - injection H as Hc _. subst c'. done.
  - injection H as Hc _. subst c. done.
  - injection H as <- H.
    apply andb_true_iff in Hs as [_ Hs]. apply andb_true_iff in Hs' as [_ Hs'].
    by destruct (IH s' Hs Hs' H) as [-> ->].
Qed.

Lemma append_newline_cancel s s' : s +:+ newline = s' +:+ newline → s = s'.
Proof.
  revert s'. induction s as [|c s IH]; intros [|c' s'] H; simpl in *.
  - done.
  - injection H as _ H. by destruct s'.
  - injection H as _ H. by destruct s.
  - injection H as <- H. by rewrite (IH s' H).
Qed.

(** X20.  The text of [deployment_info.txt] determines the record: when
    ARNs and ids hold no line break, two records with the same text have
    the same ARN, the same id and the same container URI. *)
Theorem deployment_info_determines_record arn id uri arn' id' uri' :
  one_line arn = true → one_line arn' = true →
  one_line id = true → one_line id' = true →
  deployment_info arn id uri = deployment_info arn' id' uri' →
  arn = arn' ∧ id = id' ∧ uri = uri'.
Proof.
  intros Harn Harn' Hid Hid' H. unfold deployment_info in H. simpl in H.
  injection H as H.
  apply (append_newline_inj _ _ _ _ Harn Harn') in H as [-> H].
  simpl in H. injection H as H.
  apply (append_newline_inj _ _ _ _ Hid Hid') in H as [-> H].
  simpl in H. injection H as H.
  by apply append_newline_cancel in H as ->.
Qed.

Lemma deployment_info_determines_record_witness :
  let arn := "arn:aws:bedrock-agentcore:us-east-1:123456789012:runtime/myagent" in
  let uri := "123456789012.dkr.ecr.us-east-1.amazonaws.com/myagent:7" in
  let uri' := "123456789012.dkr.ecr.us-east-1.amazonaws.com/myagent:8" in
  (arn = arn ∧ "myagent-Ab12Cd34" = "myagent-Ab12Cd34" ∧ uri = uri)
  ∧ deployment_info arn "myagent-Ab12Cd34" uri
    ≠ deployment_info arn "myagent-Ab12Cd34" uri'.
Proof.
  split.
  - apply (deployment_info_determines_record
             "arn:aws:bedrock-agentcore:us-east-1:123456789012:runtime/myagent"
             "myagent-Ab12Cd34"
             "123456789012.dkr.ecr.us-east-1.amazonaws.com/myagent:7"
             "arn:aws:bedrock-agentcore:us-east-1:123456789012:runtime/myagent"
             "myagent-Ab12Cd34"
             "123456789012.dkr.ecr.us-east-1.amazonaws.com/myagent:7");
      reflexivity.
  - intros H.
    apply deployment_info_determines_record in H as (_ & _ & Huri);
      [discriminate | reflexivity..].
Defined.

End ReconcilerAtLarge.

(** ** The pruner, whatever the registry answers *)

Section PrunerAtLarge.
Import CleanupEcr.

Lemma key_lt_stamp x y v :
  key_lt (pushed_key x) (pushed_key y) = Reply v → v = (stamp x <? stamp y)%Z.
Proof.
  unfold pushed_key, stamp.
  destruct (imagePushedAt x), (imagePushedAt y); simpl; congruence.
Qed.

Lemma insert_desc_perm x l r : insert_desc x l = Reply r → r ≡ₚ x :: l.
Proof.
  revert r. induction l as [|y l IH]; simpl; intros r.
  - by intros [= <-].
  - destruct (key_lt _ _) as [[]|]; [|by intros [= <-]|done].
    destruct (insert_desc x l) as [r'|]; [|done]. intros [= <-].
    rewrite (IH r' eq_refl). apply Permutation_swap.
Qed.

(** Whenever the sort succeeds its result is a rearrangement of the
    list. *)
Lemma sorted_desc_perm l s : sorted_desc l = Reply s → s ≡ₚ l.
Proof.
  revert s. induction l as [|x l IH]; simpl; intros s.
  - by intros [= <-].
  - destruct (sorted_desc l) as [s'|]; [|done]. intros H.
    apply insert_desc_perm in H. by rewrite H, (IH s' eq_refl).
Qed.

Lemma insert_desc_stable x l r t :
  insert_desc x l = Reply r →
  filter (λ y, stamp y = t) r = filter (λ y, stamp y = t) (x :: l).
Proof.
  revert r. induction l as [|y l IH]; simpl; intros r.
  - by intros [= <-].
  - destruct (key_lt _ _) as [v|] eqn:Hlt; [|done].
    apply key_lt_stamp in Hlt. subst v.
    destruct (Z.ltb_spec (stamp x) (stamp y)) as [Hxy|Hxy]; [|by intros [= <-]].
    destruct (insert_desc x l) as [r'|]; [|done]. intros [= <-].
    rewrite !filter_cons, (IH r' eq_refl), !filter_cons.
    destruct (decide (stamp y = t)), (decide (stamp x = t)); try done. lia.
Qed.

(** X6.  The sort is stable: images pushed at the same time come out in
    the order of the listing, so that among them the ones listed first
    are the ones kept. *)
Theorem sort_is_stable images s t :
  sorted_desc images = Reply s →
  filter (λ x, stamp x = t) s = filter (λ x, stamp x = t) images.
Proof.
  revert s. induction images as [|x images IH]; simpl; intros s.
  - by intros [= <-].
  - destruct (sorted_desc images) as [s'|]; [|done]. intros H.
    rewrite (insert_desc_stable _ _ _ t H), !filter_cons.
    by rewrite (IH s' eq_refl).
Qed.

Lemma sort_is_stable_witness :
  ∃ s, sorted_desc MoreExamples.tied_images = Reply s
    ∧ imageDigest <$> filter (λ x, stamp x = 100%Z) s
      = [Some "sha256:a"; Some "sha256:c"].
Proof.
  eexists. split; [reflexivity|].
  rewrite (sort_is_stable MoreExamples.tied_images _ 100 eq_refl).
  reflexivity.
Defined.

Lemma sorted_desc_undated images :
  Forall (λ x, dated x = false) images → sorted_desc images = Reply images.
Proof.
  induction 1 as [|x images Hx Hall IH]; simpl; [done|]. rewrite IH.
  destruct Hall as [|y images Hy _]; simpl; [done|].
  rewrite (key_lt_same_sort x y) by congruence.
  unfold stamp, dated in *.
  destruct (imagePushedAt x), (imagePushedAt y); done.
Qed.

(** X7.  In a repository where no image carries [imagePushedAt], the
    order of the listing decides: for [keep_count ≥ 0] the first
    [keep_count] listed images are kept and the digests of all the others
    are handed to the delete request. *)
Theorem undated_repository client repo keep_count images :
  (0 ≤ keep_count)%Z →
  describe_images client repo = Reply images →
  Forall (λ x, dated x = false) images →
  let run := process_repository client repo keep_count in
  sorted_desc images = Reply images
  ∧ deleted (trace run) = image_ids (drop (Z.to_nat keep_count) images).
Proof.
  intros Hk Himages Hundated run.
  pose proof (sorted_desc_undated images Hundated) as Hs.
  split; [done|].
  destruct (process_repository_sorted client repo keep_count images images
              Himages Hs) as (_ & Hdel & _).
  subst run. by rewrite Hdel, slice_from_nonneg.
Qed.

Lemma undated_repository_witness :
  deleted (trace (process_repository
                    (Examples.registry MoreExamples.undated_images)
                    "agentcore" 2))
  = ["sha256:r"].
Proof.
  destruct (undated_repository (Examples.registry MoreExamples.undated_images)
              "agentcore" 2 MoreExamples.undated_images) as [_ H].
  - lia.
  - reflexivity.
  - repeat constructor.
  - exact H.
Defined.

(** *** Failures *)

(** The trace and outcome of [process_repository], case by case. *)
Lemma process_repository_cases client repo keep_count :
  process_repository client repo keep_count =
  let failed e :=
    Log ERROR "Error processing repository {}: {}" [AStr repo; AExn e] in
  match describe_images client repo with
  | Fault e => ([Call (DescribeImages repo); failed e], Returned tt)
  | Reply images =>
      match sorted_desc images with
      | Fault e => ([Call (DescribeImages repo); failed e], Returned tt)
      | Reply s =>
          match slice_from s keep_count, image_ids (slice_from s keep_count) with
          | [], _ =>
              ([Call (DescribeImages repo);
                Log INFO "Repository {} has {} images (within keep limit)"
                  [AStr repo; AInt (Z.of_nat (length s))]],
               Returned tt)
          | _ :: _, [] => ([Call (DescribeImages repo)], Returned tt)
          | _ :: _, (_ :: _) as ids =>
              match batch_delete_image client repo ids with
              | Reply _ =>
                  ([Call (DescribeImages repo);
                    Call (BatchDeleteImage repo ids);
                    Log INFO "Deleted {} old images from {}"
                      [AInt (Z.of_nat (length ids)); AStr repo];
                    Log INFO "Kept {} recent images"
                      [AInt (Z.of_nat (length s) `min` keep_count)]],
                   Returned tt)
              | Fault e =>
                  ([Call (DescribeImages repo);
                    Call (BatchDeleteImage repo ids); failed e],
                   Returned tt)
              end
          end
      end
  end.
Proof.
  unfold process_repository.
  destruct (describe_images client repo) as [images|e]; [|done]. py_run.
  destruct (sorted_desc images) as [s|e]; [|done]. py_run.
  destruct (slice_from s keep_count) as [|x doomed]; [done|].
  destruct (image_ids (x :: doomed)) as [|d ids]; [done|].
  by destruct (batch_delete_image client repo (d :: ids)) as [[]|e].
Qed.

(** X8.  [process_repository] never raises and never exits: whatever
    the registry answers it returns, and a failure of the listing, of the
    sort or of the delete request leaves one [ERROR] line that carries
    the exception.  A delete request that failed is not reported as a
    deletion. *)
Theorem failures_stay_inside client repo keep_count :
  let run := process_repository client repo keep_count in
  let failed e := ("Error processing repository {}: {}", [AStr repo; AExn e]) in
  result run = Returned tt
  ∧ errors (trace run) =
      match describe_images client repo with
      | Fault e => [failed e]
      | Reply images =>
          match sorted_desc images with
          | Fault e => [failed e]
          | Reply s =>
              match image_ids (slice_from s keep_count) with
              | [] => []
              | ids =>
                  match batch_delete_image client repo ids with
                  | Fault e => [failed e]
                  | Reply _ => []
                  end
              end
          end
      end
  ∧ (errors (trace run) ≠ [] →
     ∀ fmt args, Log INFO fmt args ∈ trace run →
                 fmt ≠ "Deleted {} old images from {}").
Proof.
  intros run failed. subst run. rewrite process_repository_cases; cbv zeta.
  destruct (describe_images client repo) as [images|e];
    [|split; [done|]; split; [done|]; intros _ fmt args Hin;
      apply elem_of_cons in Hin as [?|Hin]; [done|];
      apply elem_of_cons in Hin as [?|Hin]; [done|];
      by apply elem_of_nil in Hin].
  destruct (sorted_desc images) as [s|e];
    [|split; [done|]; split; [done|]; intros _ fmt args Hin;
      apply elem_of_cons in Hin as [?|Hin]; [done|];
      apply elem_of_cons in Hin as [?|Hin]; [done|];
      by apply elem_of_nil in Hin].
  destruct (slice_from s keep_count) as [|x doomed] eqn:Hslice.
  - split; [done|]. split; [done|]. by intros [].
  - destruct (image_ids (x :: doomed)) as [|d ids].
    + split; [done|]. split; [done|]. by intros [].
    + destruct (batch_delete_image client repo (d :: ids)) as [[]|e].
      * split; [done|]. split; [done|]. by intros [].
      * split; [done|]. split; [done|]. intros _ fmt args Hin.
        repeat (apply elem_of_cons in Hin as [?|Hin]; [done|]).
        by apply elem_of_nil in Hin.
Qed.

(** X9.  [process_repository] sends at most one delete request; the
    request names the repository it was given, is never empty, and asks
    only for digests of images that the listing of that repository
    showed. *)
Theorem delete_requests_are_sound client repo keep_count :
  let run := process_repository client repo keep_count in
  batch_deletes (trace run) = []
  ∨ ∃ ids images,
      batch_deletes (trace run) = [(repo, ids)]
      ∧ ids ≠ []
      ∧ describe_images client repo = Reply images
      ∧ ∀ d, d ∈ ids → ∃ x, x ∈ images ∧ imageDigest x = Some d.
Proof.
  intros run. subst run. rewrite process_repository_cases; cbv zeta.
  destruct (describe_images client repo) as [images|e]; [|by left].
  destruct (sorted_desc images) as [s|e] eqn:Hs; [|by left].
  destruct (slice_from s keep_count) as [|x doomed] eqn:Hslice; [by left|].
  destruct (image_ids (x :: doomed)) as [|d ids] eqn:Hids; [by left|].
  right. exists (d :: ids), images.
  split; [by destruct (batch_delete_image _ _ _) as [[]|]|].
  split; [done|]. split; [done|].
  intros d' Hd'. rewrite <- Hids in Hd'. unfold image_ids in Hd'.
  apply list_elem_of_omap in Hd' as (y & Hy & Hdigest).
  exists y. split; [|done].
  rewrite <- (sorted_desc_perm images s Hs).
  rewrite <- Hslice in Hy. unfold slice_from in Hy.
  by apply subseteq_drop in Hy.
Qed.

(** *** [cleanup_ecr_images] and [main] *)

Lemma cleanup_ecr_images_cases boto3_client region keep_count repository_name :
  cleanup_ecr_images boto3_client region keep_count repository_name =
  match describe_repositories (boto3_client region) [repository_name] with
  | Reply _ =>
      (Call (DescribeRepositories [repository_name]) ::
       Log INFO "Processing repository: {}" [AStr repository_name] ::
       trace (process_repository (boto3_client region) repository_name
                keep_count),
       Returned tt)
  | Fault e =>
      if is_RepositoryNotFoundException e
      then ([Call (DescribeRepositories [repository_name]);
             Log INFO "Repository {} not found, skipping cleanup"
               [AStr repository_name]],
            Returned tt)
      else ([Call (DescribeRepositories [repository_name])], Raised e)
  end.
Proof.
  unfold cleanup_ecr_images.
  destruct (describe_repositories _ _) as [[]|e]; py_run.
  -     rewrite process_repository_cases; cbv zeta.
    destruct (describe_images _ _) as [images|e]; [|done].
    destruct (sorted_desc images) as [s|e]; [|done].
    destruct (slice_from s keep_count) as [|x doomed]; [done|].
    destruct (image_ids (x :: doomed)) as [|d ids]; [done|].
    by destruct (batch_delete_image _ _ _) as [[]|e].
  - by destruct (is_RepositoryNotFoundException e).
Qed.

(** X10.  What [cleanup_ecr_images] raises: the exception of the
    creation of the client, before any request; and the exception of the
    lookup of the repository unless it is [RepositoryNotFoundException],
    the lookup being then the only request sent.  It raises nothing
    else: when the lookup succeeds the repository is processed and the
    call returns, whatever happens while processing. *)
Theorem only_client_and_lookup_raise boto3_client region keep_count repository_name :
  let run :=
    CleanupEcrScript.cleanup_ecr_images boto3_client region keep_count
      repository_name in
  match boto3_client region with
  | Fault e => result run = Raised e ∧ trace run = []
  | Reply client =>
      match describe_repositories client [repository_name] with
      | Reply _ =>
          result run = Returned tt
          ∧ calls (trace run) =
              DescribeRepositories [repository_name] ::
              calls (trace (process_repository client repository_name
                              keep_count))
      | Fault e =>
          result run =
            (if is_RepositoryNotFoundException e then Returned tt
             else Raised e)
          ∧ calls (trace run) = [DescribeRepositories [repository_name]]
      end
  end.
Proof.
  intros run. subst run. unfold CleanupEcrScript.cleanup_ecr_images.
  destruct (boto3_client region) as [client|e]; [|done].
  change (lift (Reply client)) with (mret client : py ecr_client).
  rewrite bind_ret_l, cleanup_ecr_images_cases.
  destruct (describe_repositories _ _) as [[]|e]; [done|].
  by destruct (is_RepositoryNotFoundException e).
Qed.

(** X11.  [main] of [cleanup_ecr.py] ends as [cleanup_ecr_images] does,
    and whenever it returns its last word is that the cleanup is
    completed: also when the repository was not found, and also when
    processing it failed and left an [ERROR] line. *)
Theorem completion_is_always_reported boto3_client region keep_count repository_name :
  let run := CleanupEcrMain.main boto3_client region keep_count repository_name in
  result run =
    result (cleanup_ecr_images boto3_client region keep_count repository_name)
  ∧ errors (trace run) =
      errors (trace (cleanup_ecr_images boto3_client region keep_count
                       repository_name))
  ∧ (result run = Returned tt →
     last (trace run) = Some (Log INFO "ECR cleanup completed!" [])).
Proof.
  intros run. subst run. unfold CleanupEcrMain.main.
  rewrite cleanup_ecr_images_cases.
  destruct (describe_repositories _ _) as [[]|e]; py_run.
  - destruct (process_repository _ _ _) as [t o]. simpl.
    split; [done|]. split.
    + simpl. by rewrite !errors_app, app_nil_r.
    + intros _. last_event.
  - destruct (is_RepositoryNotFoundException e); py_run; by split.
Qed.

Lemma completion_after_an_error :
  let run := CleanupEcrMain.main
               (λ _, MoreExamples.read_only Examples.three_images)
               "us-east-1" 1 "agentcore" in
  result run = Returned tt
  ∧ errors (trace run) ≠ []
  ∧ last (trace run) = Some (Log INFO "ECR cleanup completed!" []).
Proof. repeat split; discriminate. Qed.

End PrunerAtLarge.

(** ** The harness, whatever the services answer *)

Section HarnessAtLarge.
Import AgentCore TestAgent.

Variable loads : string → reply json.




(** [test_agent], case by case. *)
Lemma test_agent_cases env agent_name region :
  test_agent loads env agent_name region =
  let client := control env region in
  match list_agent_runtimes client with
  | Fault e =>
      ([Call ListAgentRuntimes;
        Log ERROR "Error finding agent runtime: {}" [AExn e]],
       Returned false)
  | Reply ls =>
      match find_runtime agent_name (default [] (agentRuntimes ls)) with
      | Some (String c s as agent_arn, agent_id) =>
          match get_agent_runtime client agent_id with
          | Fault e =>
              ([Call ListAgentRuntimes;
                Log INFO "Found agent: {}" [AStr agent_arn];
                Call (GetAgentRuntime agent_id);
                Log ERROR "Could not check agent status: {}" [AExn e]],
               Returned false)
          | Reply status =>
              if String.eqb status "READY"
              then
                ([Call ListAgentRuntimes;
                  Log INFO "Found agent: {}" [AStr agent_arn];
                  Call (GetAgentRuntime agent_id);
                  Log INFO "Agent runtime status: {}" [AStr status]] ++
                 trace (run_battery loads (runtime env region) agent_name
                          agent_arn region test_cases),
                 result (run_battery loads (runtime env region) agent_name
                           agent_arn region test_cases))
              else
                ([Call ListAgentRuntimes;
                  Log INFO "Found agent: {}" [AStr agent_arn];
                  Call (GetAgentRuntime agent_id);
                  Log INFO "Agent runtime status: {}" [AStr status];
                  Log ERROR
                    "Agent is not ready (status: {}). Please wait and try again."
                    [AStr status]],
                 Returned false)
          end
      | _ =>
          ([Call ListAgentRuntimes;
            Log ERROR "Agent runtime '{}' not found" [AStr agent_name];
            Log ERROR "Please ensure the agent has been deployed successfully"
              []],
           Returned false)
      end
  end.
Proof.
  unfold test_agent, resolve_agent, check_status. cbv zeta.
  destruct (list_agent_runtimes (control env region)) as [ls|e]; py_run;
    [|done].
  destruct (find_runtime agent_name (default [] (agentRuntimes ls)))
    as [[[|c s] agent_id]|]; py_run; try done.
  destruct (get_agent_runtime (control env region) agent_id) as [status|e];
    py_run; [|done].
  destruct (String.eqb status "READY"); py_run; [|done].
  by destruct (run_battery _ _ _ _ _ _) as [t o].
Qed.

(** [test_agent] of the script, case by case. *)
Lemma test_agent_script_cases env agent_name region :
  let run := TestAgentScript.test_agent loads env agent_name region in
  match TestAgentScript.control env region with
  | Fault e => run = ([], Raised e)
  | Reply control_client =>
      match ready_arn control_client agent_name with
      | None =>
          result run = Returned false ∧ invocations (trace run) = []
      | Some agent_arn =>
          match TestAgentScript.runtime env region with
          | Fault e =>
              result run = Raised e ∧ invocations (trace run) = []
          | Reply client =>
              result run =
                Returned (forallb (case_outcome loads client agent_arn)
                            test_cases)
          end
      end
  end.
Proof.
  intros run. subst run. unfold TestAgentScript.test_agent.
  destruct (TestAgentScript.control env region) as [control_client|e];
    [|done].
  change (lift (Reply control_client))
    with (mret control_client : py AgentCore.control_client).
  rewrite bind_ret_l.
  unfold ready_arn, resolve_agent, check_status.
  destruct (list_agent_runtimes control_client) as [ls|e]; py_run; [|done].
  destruct (find_runtime agent_name (default [] (agentRuntimes ls)))
    as [[[|c s] agent_id]|]; py_run; try done.
  destruct (get_agent_runtime control_client agent_id) as [status|e];
    py_run; [|done].
  destruct (String.eqb status "READY"); py_run; [|done].
  destruct (TestAgentScript.runtime env region) as [client|e]; py_run;
    [|done].
  destruct (run_battery_spec loads client agent_name (String c s) region
              test_cases) as (t & -> & _).
  done.
Qed.

(** X12.  What escapes [test_agent]: the exception of the creation of
    either client, and nothing else.  When the control-plane client
    cannot be made that exception is raised before any request; when the
    runtime is not found or not ready, or a lookup fails, the call
    returns [False]; when it is ready and the runtime client cannot be
    made that exception is raised before any invocation; otherwise the
    call returns [True] or [False], the conjunction of the outcomes of
    the cases, whatever the requests raise. *)
Theorem only_client_creation_raises env agent_name region :
  let run := TestAgentScript.test_agent loads env agent_name region in
  match TestAgentScript.control env region with
  | Fault e => result run = Raised e ∧ calls (trace run) = []
  | Reply control_client =>
      match ready_arn control_client agent_name with
      | None =>
          result run = Returned false ∧ invocations (trace run) = []
      | Some agent_arn =>
          match TestAgentScript.runtime env region with
          | Fault e =>
              result run = Raised e ∧ invocations (trace run) = []
          | Reply client =>
              result run =
                Returned (forallb (case_outcome loads client agent_arn)
                            test_cases)
          end
      end
  end.
Proof.
  intros run. subst run.
  pose proof (test_agent_script_cases env agent_name region) as H.
  cbv zeta in H.
  destruct (TestAgentScript.control env region) as [control_client|e];
    [exact H|].
  by rewrite H.
Qed.


(** X14.  When the listing raises, or when the query of the status
    raises, [test_agent] returns [False] with one [ERROR] line carrying
    the exception, and invokes nothing. *)
Theorem lookup_failures env agent_name region e :
  let client := control env region in
  list_agent_runtimes client = Fault e
  ∨ (∃ agent_arn agent_id,
       found_runtime client agent_name = Some (agent_arn, agent_id)
       ∧ get_agent_runtime client agent_id = Fault e) →
  let run := test_agent loads env agent_name region in
  result run = Returned false
  ∧ invocations (trace run) = []
  ∧ (errors (trace run) = [("Error finding agent runtime: {}", [AExn e])]
     ∨ errors (trace run) = [("Could not check agent status: {}", [AExn e])]).
Proof.
  intros client H run. subst client run. rewrite test_agent_cases. cbv zeta.
  destruct H as [->|(agent_arn & agent_id & Hfound & Hstatus)].
  - split; [done|]. split; [done | by left].
  - unfold found_runtime in Hfound.
    destruct (list_agent_runtimes _) as [ls|e']; [|done].
    destruct (find_runtime _ _) as [[[|c s] agent_id']|]; try done.
    injection Hfound as <- <-. rewrite Hstatus.
    split; [done|]. split; [done | by right].
Qed.

(** X15.  [main] of [test_agent.py] ends as [test_agent] tells it to: it
    returns, after the line of success, when [test_agent] returns
    [True]; it exits with status 1, after the line of failure, when
    [test_agent] returns [False]; and what [test_agent] raises reaches
    the caller of [main] as it is. *)
Theorem main_follows_the_tests env agent_name region :
  let tests := TestAgentScript.test_agent loads env agent_name region in
  let run := TestAgentScript.main loads env agent_name region in
  match result tests with
  | Returned true =>
      result run = Returned tt
      ∧ last (trace run)
        = Some (Log INFO (newline +:+ "Test suite completed successfully!") [])
  | Returned false =>
      result run = Exited 1
      ∧ last (trace run) = Some (Log ERROR (newline +:+ "Test suite failed!") [])
  | Raised e => result run = Raised e
  | Exited status => result run = Exited status
  end.
Proof.
  intros tests run. subst tests run. unfold TestAgentScript.main.
  destruct (TestAgentScript.test_agent loads env agent_name region)
    as [t [[|]|e|status]]; py_run; try done; (split; [done | last_event]).
Qed.

End HarnessAtLarge.

Lemma lookup_failures_witness :
  let run :=
    TestAgent.test_agent Examples.loads
      (Examples.test_env MoreExamples.status_down Examples.parrot)
      "myagent" "us-east-1" in
  result run = Returned false
  ∧ invocations (trace run) = []
  ∧ errors (trace run)
    = [("Could not check agent status: {}",
        [AExn (ClientError "ThrottlingException")])].
Proof.
  destruct (lookup_failures Examples.loads
              (Examples.test_env MoreExamples.status_down Examples.parrot)
              "myagent" "us-east-1" (ClientError "ThrottlingException"))
    as (Hend & Hnone & [Herr|Herr]).
  - right.
    exists (AgentCore.agentRuntimeArn (Examples.runtime_named "myagent")),
           (AgentCore.agentRuntimeId (Examples.runtime_named "myagent")).
    split; reflexivity.
  - vm_compute in Herr. discriminate.
  - split; [exact Hend|]. split; [exact Hnone | exact Herr].
Defined.

(** The runtime is ready, the runtime client cannot be made: the
    exception reaches the caller of [main]. *)
Lemma main_raises_without_runtime_client :
  result (TestAgentScript.main Examples.loads ScriptExamples.half_made
            "myagent" "us-east-1")
  = Raised (OtherException "InvalidRegionError").
Proof. reflexivity. Qed.

(** ** [create_minimal_guardrail] *)

Section GuardrailProperties.
Import CreateGuardrail.

Ltac gr_run :=
  repeat (progress
            (unfold mbind, mret, run_bind, run_ret, attempt, send, logged,
               write, reraise, create_version;
             simpl)).

(** [create_minimal_guardrail], case by case. *)
Lemma create_minimal_guardrail_cases boto3_client region :
  create_minimal_guardrail boto3_client region =
  let client := boto3_client region in
  let create :=
    Request (CreateGuardrail guardrail_name guardrail_description
               filtersConfig blockedInputMessaging blockedOutputsMessaging) in
  let failed e := Logged WARNING "Error creating guardrail: {}" [AExn e] in
  match list_guardrails client with
  | Fault e =>
      (Request ListGuardrails :: (if is_ClientError e then [failed e] else []),
       Raised e)
  | Reply response =>
      match find_guardrail guardrail_name (default [] (guardrails response)) with
      | Some guardrail =>
          ([Request ListGuardrails;
            Logged INFO "Guardrail {} already exists: {}"
              [AStr guardrail_name; AStr (summary_id guardrail)]],
           Returned (summary_id guardrail))
      | None =>
          match create_guardrail client guardrail_name guardrail_description
                  filtersConfig blockedInputMessaging blockedOutputsMessaging with
          | Fault e =>
              (Request ListGuardrails :: create ::
               (if is_ClientError e then [failed e] else []),
               Raised e)
          | Reply guardrail_id =>
              let created :=
                Logged INFO "Created guardrail: {} (ID: {})"
                  [AStr guardrail_name; AStr guardrail_id] in
              let version :=
                Request (CreateGuardrailVersion guardrail_id
                           version_description) in
              match create_guardrail_version client guardrail_id
                      version_description with
              | Reply v =>
                  ([Request ListGuardrails; create; created; version;
                    Logged INFO "Created guardrail version: {}" [AStr v];
                    Wrote "guardrail_id.txt" guardrail_id],
                   Returned guardrail_id)
              | Fault e =>
                  if is_ClientError e
                  then
                    ([Request ListGuardrails; create; created; version;
                      Logged WARNING "Could not create guardrail version: {}"
                        [AExn e];
                      Logged INFO "Guardrail will use DRAFT version" [];
                      Wrote "guardrail_id.txt" guardrail_id],
                     Returned guardrail_id)
                  else
                    ([Request ListGuardrails; create; created; version],
                     Raised e)
              end
          end
      end
  end.
Proof.
  unfold create_minimal_guardrail. cbv zeta.
  destruct (list_guardrails (boto3_client region)) as [response|e]; gr_run;
    [|by destruct e].
  destruct (find_guardrail _ _) as [guardrail|]; gr_run; [done|].
  destruct (create_guardrail _ _ _ _ _ _) as [guardrail_id|e]; gr_run;
    [|by destruct e].
  destruct (create_guardrail_version _ _ _) as [v|e]; gr_run; [done|].
  by destruct e.
Qed.

Lemma find_guardrail_first name pre guardrail post :
  Forall (λ g, summary_name g ≠ name) pre →
  summary_name guardrail = name →
  find_guardrail name (pre ++ guardrail :: post) = Some guardrail.
Proof.
  intros Hpre Hname. induction Hpre as [|g pre Hg _ IH]; simpl.
  - apply String.eqb_eq in Hname. by rewrite Hname.
  - apply String.eqb_neq in Hg. by rewrite Hg.
Qed.

(** X16.  When the listing shows a guardrail named
    [AgentCore-Minimal-Guardrail], the id of the first such guardrail is
    returned; the listing is the only request, nothing is created, and
    [guardrail_id.txt] is not written. *)
Theorem existing_guardrail_is_reused boto3_client region response pre guardrail post :
  list_guardrails (boto3_client region) = Reply response →
  default [] (guardrails response) = pre ++ guardrail :: post →
  Forall (λ g, summary_name g ≠ guardrail_name) pre →
  summary_name guardrail = guardrail_name →
  let run := create_minimal_guardrail boto3_client region in
  run.2 = Returned (summary_id guardrail)
  ∧ requests run.1 = [ListGuardrails]
  ∧ files run.1 = [].
Proof.
  intros Hlist Hsplit Hpre Hname run. subst run.
  rewrite create_minimal_guardrail_cases. cbv zeta.
  by rewrite Hlist, Hsplit, (find_guardrail_first _ _ _ _ Hpre Hname).
Qed.

Lemma existing_guardrail_is_reused_witness :
  let run := create_minimal_guardrail (λ _, MoreExamples.guarded) "us-east-1" in
  run.2 = Returned "gr-2" ∧ requests run.1 = [ListGuardrails] ∧ files run.1 = [].
Proof.
  apply (existing_guardrail_is_reused (λ _, MoreExamples.guarded) "us-east-1"
           {| guardrails :=
                Some [ {| summary_name := "other"; summary_id := "gr-1" |};
                       {| summary_name := "AgentCore-Minimal-Guardrail";
                          summary_id := "gr-2" |} ] |}
           [ {| summary_name := "other"; summary_id := "gr-1" |} ]
           {| summary_name := "AgentCore-Minimal-Guardrail";
              summary_id := "gr-2" |}
           []); try reflexivity.
  repeat constructor. discriminate.
Defined.


(** X18.  How [create_minimal_guardrail] ends.  A failure of the listing
    or of the create request is raised unchanged, after a warning when it
    is a [ClientError]; a [ClientError] of the version request is
    tolerated, with a warning of its own, and the id of the new guardrail
    is returned all the same; any other failure of the version request is
    raised.  The function never exits. *)
Theorem end_of_a_guardrail_run boto3_client region :
  let client := boto3_client region in
  let run := create_minimal_guardrail boto3_client region in
  let caught fmt e := if is_ClientError e then [(fmt, [AExn e])] else [] in
  match list_guardrails client with
  | Fault e =>
      run.2 = Raised e
      ∧ warnings run.1 = caught "Error creating guardrail: {}" e
  | Reply response =>
      match find_guardrail guardrail_name (default [] (guardrails response)) with
      | Some guardrail =>
          run.2 = Returned (summary_id guardrail) ∧ warnings run.1 = []
      | None =>
          match create_guardrail client guardrail_name guardrail_description
                  filtersConfig blockedInputMessaging blockedOutputsMessaging with
          | Fault e =>
              run.2 = Raised e
              ∧ warnings run.1 = caught "Error creating guardrail: {}" e
          | Reply guardrail_id =>
              match create_guardrail_version client guardrail_id
                      version_description with
              | Reply _ => run.2 = Returned guardrail_id ∧ warnings run.1 = []
              | Fault e =>
                  run.2 = (if is_ClientError e then Returned guardrail_id
                           else Raised e)
                  ∧ warnings run.1 =
                      caught "Could not create guardrail version: {}" e
              end
          end
      end
  end.
Proof.
  intros client run caught. subst client run caught.
  rewrite create_minimal_guardrail_cases. cbv zeta.
  destruct (list_guardrails _) as [response|e]; [|by destruct e].
  destruct (find_guardrail _ _) as [guardrail|]; [done|].
  destruct (create_guardrail _ _ _ _ _ _) as [guardrail_id|e]; [|by destruct e].
  destruct (create_guardrail_version _ _ _) as [v|e]; [done|].
  by destruct e.
Qed.


End GuardrailProperties.
